(** * Sheet ingestion and the Statistics sheet of [utils/excel_processor.py]

    A shallow embedding of the class [ExcelProcessor]: the pandas frames it
    cleans, the openpyxl workbook it writes the "Statistics" sheet into, and
    the try/except wrappers around both.  Numbers are exact rationals: the
    float64 arithmetic of pandas is idealised. *)

From Stdlib Require Import ZArith QArith Qround Qminmax Lqa String Ascii List Lia.
From stdpp Require Import gmap strings list sorting.

Local Open Scope string_scope.
Local Open Scope nat_scope.

(** ** Python results: a value or a raised exception (its message). *)

Inductive result (A : Type) : Type :=
| Ok (a : A)
| Raise (e : string).
Arguments Ok {A} a.
Arguments Raise {A} e.

(** ** pandas: cells, Series, DataFrame *)

Module pd.

(** A non-null cell.  Dates are instants counted from the epoch. *)
Inductive value : Type :=
| VStr (s : string)
| VNum (q : Q)
| VBool (b : bool)
| VDate (d : Z).

(** [None] is the missing value (None, NaN, NaT). *)
Definition cell : Type := option value.

Inductive dtype : Type := object | int64 | float64 | bool_ | datetime64.

Global Instance dtype_eq_dec : EqDecision dtype.
Proof. solve_decision. Defined.

Record Series : Type := mkSeries { s_dtype : dtype; s_values : list cell }.

(** A column header read from a sheet: text, or a number. *)
Inductive label : Type :=
| LStr (s : string)
| LInt (z : Z).

Global Instance label_eq_dec : EqDecision label.
Proof. solve_decision. Defined.

(** A frame: the row labels and the named columns, in order. *)
Record DataFrame : Type := mkFrame {
  index : list nat;
  columns : list (label * Series)
}.

(** [len(df)] and [df.columns]. *)
Definition len (df : DataFrame) : nat := length (index df).
Definition labels (df : DataFrame) : list label := (columns df).*1.

(** Every column spans the index. *)
Definition wf (df : DataFrame) : Prop :=
  Forall (fun ls : label * Series => length (s_values ls.2) = len df) (columns df).

Definition isna (c : cell) : bool :=
  match c with None => true | Some _ => false end.

(** The cell of a column at a position; outside the column there is nothing. *)
Definition iat (s : Series) (i : nat) : cell :=
  match s_values s !! i with Some c => c | None => None end.

Definition row_all_na (df : DataFrame) (i : nat) : bool :=
  forallb (fun ls : label * Series => isna (iat ls.2 i)) (columns df).

Definition col_all_na (s : Series) : bool := forallb isna (s_values s).

(** Boolean indexing: the entries whose mask is [true]. *)
Fixpoint boolean_index {A : Type} (mask : list bool) (xs : list A) : list A :=
  match mask, xs with
  | b :: mask', x :: xs' =>
      if b then x :: boolean_index mask' xs' else boolean_index mask' xs'
  | _, _ => []
  end.


(** [df.dropna(how='all')]: the rows in which some cell is present. *)
Definition dropna_rows (df : DataFrame) : DataFrame :=
  let mask := map (fun i => negb (row_all_na df i)) (seq 0 (len df)) in
  {| index := boolean_index mask (index df);
     columns := map (fun ls : label * Series =>
                       (ls.1, {| s_dtype := s_dtype ls.2;
                                 s_values := boolean_index mask (s_values ls.2) |}))
                    (columns df) |}.

(** [df.dropna(axis=1, how='all')]: the columns in which some cell is present. *)
Definition dropna_cols (df : DataFrame) : DataFrame :=
  {| index := index df;
     columns := filter (fun ls : label * Series => col_all_na ls.2 = false) (columns df) |}.

(** [str.lower] on ASCII letters and the test [sub in s]. *)
Definition lower_ascii (a : ascii) : ascii :=
  let n := nat_of_ascii a in
  if (65 <=? n) && (n <=? 90) then ascii_of_nat (n + 32) else a.

Fixpoint lower (s : string) : string :=
  match s with
  | EmptyString => EmptyString
  | String a s' => String (lower_ascii a) (lower s')
  end.

Fixpoint contains (sub s : string) : bool :=
  String.prefix sub s
  || match s with
     | EmptyString => false
     | String _ s' => contains sub s'
     end.

(** The text parsers of pandas, left open: what [to_datetime] and
    [to_numeric] accept as a date or as a number. *)
Class Parsers : Type := {
  parse_datetime : string -> option Z;
  parse_number : string -> option Q
}.

Section Conversion.
Context `{Parsers}.

Definition datetime_of (v : value) : option Z :=
  match v with
  | VDate d => Some d
  | VStr s => parse_datetime s
  | VNum q => Some (Qfloor q)
  | VBool _ => None
  end.

Definition number_of (v : value) : option Q :=
  match v with
  | VNum q => Some q
  | VStr s => parse_number s
  | VBool b => Some (if b then 1%Q else 0%Q)
  | VDate _ => None
  end.

(** Convert the present cells; a missing cell stays missing. *)
Definition convert_cell (f : value -> option value) (c : cell) : option cell :=
  match c with
  | None => Some None
  | Some v => match f v with Some v' => Some (Some v') | None => None end
  end.

Definition as_datetime (v : value) : option value :=
  match datetime_of v with Some d => Some (VDate d) | None => None end.

Definition as_number (v : value) : option value :=
  match number_of v with Some q => Some (VNum q) | None => None end.

(** [pd.to_datetime(s, errors='ignore')]: the converted column, or the input
    when some cell does not parse. *)
Definition to_datetime (s : Series) : Series :=
  match mapM (convert_cell as_datetime) (s_values s) with
  | Some xs => {| s_dtype := datetime64; s_values := xs |}
  | None => s
  end.

Definition is_integer (q : Q) : bool := Qeq_bool q (inject_Z (Qfloor q)).

Definition numeric_dtype (xs : list cell) : dtype :=
  if forallb (fun c : cell => match c with Some (VNum q) => is_integer q | _ => false end) xs
  then int64 else float64.

(** [pd.to_numeric(s, errors='ignore')]; the source calls it on object
    columns only. *)
Definition to_numeric (s : Series) : Series :=
  match mapM (convert_cell as_number) (s_values s) with
  | Some xs => {| s_dtype := numeric_dtype xs; s_values := xs |}
  | None => s
  end.

End Conversion.

(** [Series.equals]: same dtype and same cells, missing cells in the same
    places counting as equal. *)
Definition value_eqb (a b : value) : bool :=
  match a, b with
  | VStr s, VStr t => String.eqb s t
  | VNum p, VNum q => Qeq_bool p q
  | VBool x, VBool y => Bool.eqb x y
  | VDate d, VDate e => Z.eqb d e
  | _, _ => false
  end.

Definition cell_eqb (a b : cell) : bool :=
  match a, b with
  | None, None => true
  | Some x, Some y => value_eqb x y
  | _, _ => false
  end.

Fixpoint array_equal (xs ys : list cell) : bool :=
  match xs, ys with
  | [], [] => true
  | x :: xs', y :: ys' => cell_eqb x y && array_equal xs' ys'
  | _, _ => false
  end.

Definition equals (a b : Series) : bool :=
  bool_decide (s_dtype a = s_dtype b) && array_equal (s_values a) (s_values b).

(** [df[col]] is a Series when exactly one column carries the label.  With a
    repeated label pandas hands back a frame, on which the Series operations
    of the source raise: that case is [None]. *)
Definition getitem (df : DataFrame) (col : label) : option Series :=
  match filter (fun ls : label * Series => ls.1 = col) (columns df) with
  | [ls] => Some ls.2
  | _ => None
  end.

(** [df[col] = s] for a label of the frame. *)
Definition setitem (df : DataFrame) (col : label) (s : Series) : DataFrame :=
  {| index := index df;
     columns := map (fun ls : label * Series =>
                       if decide (ls.1 = col) then (ls.1, s) else ls) (columns df) |}.

(** [df.select_dtypes(include=['number']).columns] *)
Definition is_number (d : dtype) : bool :=
  match d with int64 | float64 => true | _ => false end.

Definition select_number_columns (df : DataFrame) : list label :=
  (filter (fun ls : label * Series => is_number (s_dtype ls.2) = true) (columns df)).*1.

(** A numeric column holds numbers and missing cells only, and a frame is
    well typed when its numeric columns do. *)
Definition numeric_cells (s : Series) : Prop :=
  Forall (fun c : cell => match c with
                          | None | Some (VNum _) => True
                          | Some _ => False
                          end) (s_values s).


(** The aggregates of a column; all of them skip the missing cells. *)
Definition count (s : Series) : nat :=
  length (filter (fun c : cell => isna c = false) (s_values s)).

Definition numbers (s : Series) : list Q :=
  omap (fun c : cell => match c with Some (VNum q) => Some q | _ => None end) (s_values s).

Definition sum (s : Series) : Q := foldr Qplus 0%Q (numbers s).

Definition min (s : Series) : option Q :=
  match numbers s with
  | [] => None
  | q :: qs => Some (foldr Qmin q qs)
  end.

Definition max (s : Series) : option Q :=
  match numbers s with
  | [] => None
  | q :: qs => Some (foldr Qmax q qs)
  end.

Definition mean (s : Series) : option Q :=
  match count s with
  | O => None
  | n => Some (sum s / inject_Z (Z.of_nat n))%Q
  end.

End pd.

(** Python's [round(x, 2)]: to the nearest hundredth, a tie to the even one. *)
Definition round_half_even (q : Q) : Z :=
  let f := Qfloor q in
  match Qcompare (q - inject_Z f) (1 # 2) with
  | Lt => f
  | Gt => (f + 1)%Z
  | Eq => if Z.even f then f else (f + 1)%Z
  end.

Definition round2 (q : Q) : Q := Qmake (round_half_even (q * 100)) 100.

(** ** A state monad with exceptions

    Python code that updates local variables or files and may raise: the
    state survives a raised exception, as the effects of a [try] body do. *)

Definition stateE (S A : Type) : Type := S -> result A * S.

Definition ret {S A : Type} (a : A) : stateE S A := fun s => (Ok a, s).

Definition raise {S A : Type} (e : string) : stateE S A := fun s => (Raise e, s).

Definition bind {S A B : Type} (m : stateE S A) (k : A -> stateE S B) : stateE S B :=
  fun s => match m s with
           | (Ok a, s') => k a s'
           | (Raise e, s') => (Raise e, s')
           end.

Definition gets {S A : Type} (f : S -> A) : stateE S A := fun s => (Ok (f s), s).

Definition modify {S : Type} (f : S -> S) : stateE S unit := fun s => (Ok tt, f s).

(** [try: body except Exception as e: handler(e)] *)
Definition try_except {S A : Type} (body : stateE S A) (handler : string -> stateE S A)
  : stateE S A :=
  fun s => match body s with
           | (Ok a, s') => (Ok a, s')
           | (Raise e, s') => handler e s'
           end.

Declare Scope py_scope.
Delimit Scope py_scope with py.
Notation "x <~ m ;; k" := (bind m (fun x => k))
  (at level 100, m at next level, right associativity) : py_scope.
Notation "m ;; k" := (bind m (fun _ => k))
  (at level 100, right associativity) : py_scope.

(** [for x in xs: body(x)] *)
Fixpoint for_each {S A : Type} (xs : list A) (body : A -> stateE S unit) : stateE S unit :=
  match xs with
  | [] => ret tt
  | x :: xs' => bind (body x) (fun _ => for_each xs' body)
  end.

(** ** openpyxl: worksheets, workbooks and the files that hold them *)

Module openpyxl.

Record Font : Type := mkFont { bold : bool; italic : bool; size : nat }.

(** A sheet: the value and the font of its cells, by column letter and row. *)
Record Worksheet : Type := mkSheet {
  cell_values : gmap (string * nat) pd.value;
  cell_fonts : gmap (string * nat) Font
}.

Definition empty_sheet : Worksheet := {| cell_values := ∅; cell_fonts := ∅ |}.

(** A workbook: its titled sheets, in order. *)
Record Workbook : Type := mkBook { worksheets : list (string * Worksheet) }.

Definition sheetnames (wb : Workbook) : list string := (worksheets wb).*1.

(** [wb[title]] *)
Fixpoint find_sheet (title : string) (l : list (string * Worksheet)) : option Worksheet :=
  match l with
  | [] => None
  | tw :: l' => if decide (tw.1 = title) then Some tw.2 else find_sheet title l'
  end.

(** [del wb[title]]: the sheet found under the title leaves the workbook. *)
Fixpoint remove_sheet (title : string) (l : list (string * Worksheet))
  : list (string * Worksheet) :=
  match l with
  | [] => []
  | tw :: l' => if decide (tw.1 = title) then l' else tw :: remove_sheet title l'
  end.

Definition delitem (wb : Workbook) (title : string) : Workbook :=
  {| worksheets := remove_sheet title (worksheets wb) |}.

(** [wb.create_sheet(title)] for a title not in use: a new empty sheet, last. *)
Definition create_sheet (wb : Workbook) (title : string) : Workbook :=
  {| worksheets := worksheets wb ++ [(title, empty_sheet)] |}.

(** Writes through the sheet object returned by [create_sheet] land in the
    workbook: the last sheet is replaced by its written state. *)
Definition store_last (wb : Workbook) (title : string) (ws : Worksheet) : Workbook :=
  {| worksheets := removelast (worksheets wb) ++ [(title, ws)] |}.

(** What a path holds, and what happens when it is opened for writing. *)
Inductive file : Type :=
| Xlsx (wb : Workbook)
| Unreadable.

Inductive access : Type :=
| Writable
| Locked     (* opening for writing is refused: the file stays as it is *)
| Failing.   (* the write starts and breaks off: the file is left damaged *)

Record entry : Type := mkEntry { content : file; mode : access }.

End openpyxl.

(** The world of one call: the files and what was printed. *)
Record world : Type := mkWorld {
  fs : gmap string openpyxl.entry;
  stdout : list string
}.

Definition py (A : Type) : Type := stateE world A.

Definition print (msg : string) : py unit :=
  modify (fun w => {| fs := fs w; stdout := stdout w ++ [msg] |}).

Definition load_workbook (file_path : string) : py openpyxl.Workbook :=
  fun w => match fs w !! file_path with
           | None => (Raise "No such file or directory", w)
           | Some e => match openpyxl.content e with
                       | openpyxl.Xlsx wb => (Ok wb, w)
                       | openpyxl.Unreadable => (Raise "File is not a zip file", w)
                       end
           end.

(** [workbook.save(file_path)] writes straight onto the path. *)
Definition save (wb : openpyxl.Workbook) (file_path : string) : py unit :=
  fun w => match fs w !! file_path with
           | None =>
               (Ok tt, {| fs := <[file_path := openpyxl.mkEntry (openpyxl.Xlsx wb) openpyxl.Writable]> (fs w);
                          stdout := stdout w |})
           | Some e =>
               match openpyxl.mode e with
               | openpyxl.Writable =>
                   (Ok tt, {| fs := <[file_path := openpyxl.mkEntry (openpyxl.Xlsx wb) openpyxl.Writable]> (fs w);
                              stdout := stdout w |})
               | openpyxl.Locked => (Raise "Permission denied", w)
               | openpyxl.Failing =>
                   (Raise "No space left on device",
                    {| fs := <[file_path := openpyxl.mkEntry openpyxl.Unreadable openpyxl.Failing]> (fs w);
                       stdout := stdout w |})
               end
           end.

(** How [pd.read_excel] turns the grid of a sheet into a frame (header row,
    dtype inference), left open; the frame it builds is rectangular. *)
Class Reader : Type := {
  parse_frame : openpyxl.Worksheet -> result pd.DataFrame;
  parse_frame_wf : forall ws df, parse_frame ws = Ok df -> pd.wf df
}.

Definition read_excel `{Reader} (file_path sheet_name : string) : py pd.DataFrame :=
  (wb <~ load_workbook file_path ;;
   match openpyxl.find_sheet sheet_name (openpyxl.worksheets wb) with
   | None => raise ("Worksheet named '" ++ sheet_name ++ "' not found")
   | Some ws => fun w => (parse_frame ws, w)
   end)%py.

(** ** The class ExcelProcessor *)

Module ExcelProcessor.
Import pd openpyxl.

Local Open Scope py_scope.

(** *** get_sheet_names *)

Definition get_sheet_names (file_path : string) : py (list string) :=
  try_except
    (workbook <~ load_workbook file_path ;;
     let sheet_names := sheetnames workbook in
     ret sheet_names)
    (fun e => print ("Error getting sheet names: " ++ e) ;; ret []).

(** *** _clean_dataframe

    The frame [df] is the local variable the body updates; what is printed
    goes to the world. *)

Section Cleaning.
Context `{Parsers}.

(** [col.lower()]: only text has the method. *)
Definition col_lower (col : label) : stateE DataFrame string :=
  match col with
  | LStr s => ret (lower s)
  | LInt _ => raise "'int' object has no attribute 'lower'"
  end.

(** [df[col]] used as a Series. *)
Definition series_of (col : label) : stateE DataFrame Series :=
  fun df => match getitem df col with
            | Some s => (Ok s, df)
            | None => (Raise "'DataFrame' object is not a Series", df)
            end.

Definition convert_date_column (col : label) : stateE DataFrame unit :=
  l <~ col_lower col ;;
  if contains "date" l || contains "time" l then
    try_except
      (s <~ series_of col ;;
       modify (fun df => setitem df col (to_datetime s)))
      (fun _ => ret tt)
  else ret tt.

Definition convert_numeric_column (col : label) : stateE DataFrame unit :=
  s <~ series_of col ;;
  if decide (s_dtype s = object) then
    let numeric_series := to_numeric s in
    if negb (equals numeric_series s) then
      modify (fun df => setitem df col numeric_series)
    else ret tt
  else ret tt.

Definition clean_body : stateE DataFrame unit :=
  modify (fun df => dropna_cols (dropna_rows df)) ;;
  cols <~ gets labels ;;
  for_each cols convert_date_column ;;
  cols <~ gets labels ;;
  for_each cols convert_numeric_column.

Definition _clean_dataframe (df : DataFrame) : py DataFrame :=
  match clean_body df with
  | (Ok _, df') => ret df'
  | (Raise e, df') => print ("Error cleaning dataframe: " ++ e) ;; ret df'
  end.

(** *** load_sheet_data *)

Definition load_sheet_data `{Reader} (file_path sheet_name : string)
  : py (option DataFrame) :=
  try_except
    (df <~ read_excel file_path sheet_name ;;
     df <~ _clean_dataframe df ;;
     ret (Some df))
    (fun e => print ("Error loading sheet data: " ++ e) ;; ret None).

End Cleaning.

(** *** create_statistics_sheet *)

(** [sheet[f'{col}{row}'] = x]; a missing value leaves the cell empty. *)
Definition setvalue (col : string) (row : nat) (x : cell) (ws : Worksheet) : Worksheet :=
  {| cell_values := match x with
                    | Some v => <[(col, row) := v]> (cell_values ws)
                    | None => delete (col, row) (cell_values ws)
                    end;
     cell_fonts := cell_fonts ws |}.

(** [sheet[f'{col}{row}'].font = f] *)
Definition setfont (col : string) (row : nat) (f : Font) (ws : Worksheet) : Worksheet :=
  {| cell_values := cell_values ws;
     cell_fonts := <[(col, row) := f]> (cell_fonts ws) |}.

Definition str (s : string) : cell := Some (VStr s).
Definition num (q : Q) : cell := Some (VNum q).
Definition int (n : nat) : cell := Some (VNum (inject_Z (Z.of_nat n))).
Definition opt_num (o : option Q) : cell :=
  match o with Some q => Some (VNum q) | None => None end.

(** A header as a cell value. *)
Definition label_cell (col : label) : cell :=
  match col with
  | LStr s => str s
  | LInt z => num (inject_Z z)
  end.

(** [col in selected_columns]: the selection is a list of strings. *)
Definition label_in (col : label) (selected_columns : list string) : bool :=
  match col with
  | LStr s => bool_decide (s ∈ selected_columns)
  | LInt _ => false
  end.

Definition font_title : Font := {| bold := true; italic := false; size := 14 |}.
Definition font_bold : Font := {| bold := true; italic := false; size := 11 |}.
Definition font_italic : Font := {| bold := false; italic := true; size := 11 |}.

(** One pass of [for col in selected_columns]. *)
Definition bullet (st : Worksheet * nat) (col : string) : Worksheet * nat :=
  let '(stats_sheet, row) := st in
  let stats_sheet := setvalue "A" row (str ("• " ++ col)) stats_sheet in
  (stats_sheet, row + 1).

(** One pass of [for col in numeric_cols]. *)
Definition stats_row (data : DataFrame) (selected_columns : list string)
    (st : Worksheet * nat) (col : label) : result (Worksheet * nat) :=
  let '(stats_sheet, row) := st in
  if label_in col selected_columns || bool_decide (selected_columns = []) then
    let row := row + 1 in
    let stats_sheet := setvalue "A" row (label_cell col) stats_sheet in
    match getitem data col with
    | None => Raise "Cannot convert a frame to Excel"
    | Some s =>
        let stats_sheet := setvalue "B" row (int (count s)) stats_sheet in
        let stats_sheet :=
          setvalue "C" row
            (if 0 <? count s then opt_num (round2 <$> mean s) else num 0) stats_sheet in
        let stats_sheet :=
          setvalue "D" row (if 0 <? count s then opt_num (min s) else num 0) stats_sheet in
        let stats_sheet :=
          setvalue "E" row (if 0 <? count s then opt_num (max s) else num 0) stats_sheet in
        let stats_sheet :=
          setvalue "F" row (if 0 <? count s then num (sum s) else num 0) stats_sheet in
        Ok (stats_sheet, row)
    end
  else Ok st.

Fixpoint stats_rows (data : DataFrame) (selected_columns : list string)
    (numeric_cols : list label) (st : Worksheet * nat) : result (Worksheet * nat) :=
  match numeric_cols with
  | [] => Ok st
  | col :: rest =>
      match stats_row data selected_columns st col with
      | Ok st' => stats_rows data selected_columns rest st'
      | Raise e => Raise e
      end
  end.

(** The body between [create_sheet] and [save]: the sheet, cell by cell. *)
Definition render (data : DataFrame) (selected_columns : list string)
    (stats_sheet : Worksheet) : result Worksheet :=
  (* Add header *)
  let stats_sheet := setvalue "A" 1 (str "Construction Project Statistics") stats_sheet in
  let stats_sheet := setfont "A" 1 font_title stats_sheet in
  (* Add selected columns information *)
  let row := 3 in
  let stats_sheet := setvalue "A" row (str "Selected Columns for Analysis:") stats_sheet in
  let stats_sheet := setfont "A" row font_bold stats_sheet in
  let row := row + 1 in
  let '(stats_sheet, row) := foldl bullet (stats_sheet, row) selected_columns in
  (* Add basic statistics *)
  let row := row + 2 in
  let stats_sheet := setvalue "A" row (str "Basic Statistics:") stats_sheet in
  let stats_sheet := setfont "A" row font_bold stats_sheet in
  let row := row + 1 in
  let stats_sheet := setvalue "A" row (str "Total Records:") stats_sheet in
  let stats_sheet := setvalue "B" row (int (len data)) stats_sheet in
  let row := row + 1 in
  let stats_sheet := setvalue "A" row (str "Total Columns:") stats_sheet in
  let stats_sheet := setvalue "B" row (int (length (columns data))) stats_sheet in
  (* Add column-wise statistics for numeric columns *)
  let numeric_cols := select_number_columns data in
  let section :=
    if 0 <? length numeric_cols then
      let row := row + 2 in
      let stats_sheet := setvalue "A" row (str "Numeric Column Statistics:") stats_sheet in
      let stats_sheet := setfont "A" row font_bold stats_sheet in
      let row := row + 1 in
      (* Headers *)
      let stats_sheet := setvalue "A" row (str "Column") stats_sheet in
      let stats_sheet := setvalue "B" row (str "Count") stats_sheet in
      let stats_sheet := setvalue "C" row (str "Mean") stats_sheet in
      let stats_sheet := setvalue "D" row (str "Min") stats_sheet in
      let stats_sheet := setvalue "E" row (str "Max") stats_sheet in
      let stats_sheet := setvalue "F" row (str "Sum") stats_sheet in
      (* Make headers bold *)
      let stats_sheet :=
        foldl (fun ws col => setfont col row font_bold ws) stats_sheet
              ["A"; "B"; "C"; "D"; "E"; "F"] in
      (* Add statistics for each numeric column *)
      stats_rows data selected_columns numeric_cols (stats_sheet, row)
    else Ok (stats_sheet, row) in
  match section with
  | Raise e => Raise e
  | Ok (stats_sheet, row) =>
      (* Add note about graph generation *)
      let row := row + 3 in
      let stats_sheet :=
        setvalue "A" row
          (str "Note: Graphs are generated in the web application based on selected columns.")
          stats_sheet in
      let stats_sheet := setfont "A" row font_italic stats_sheet in
      let row := row + 1 in
      let stats_sheet :=
        setvalue "A" row
          (str "Use the PowerPoint export feature to generate presentation slides.")
          stats_sheet in
      let stats_sheet := setfont "A" row font_italic stats_sheet in
      Ok stats_sheet
  end.

Definition create_statistics_sheet (file_path : string) (data : DataFrame)
    (selected_columns : list string) : py bool :=
  try_except
    (workbook <~ load_workbook file_path ;;
     let workbook :=
       if bool_decide ("Statistics" ∈ sheetnames workbook)
       then delitem workbook "Statistics" else workbook in
     let workbook := create_sheet workbook "Statistics" in
     match render data selected_columns empty_sheet with
     | Raise e => raise e
     | Ok stats_sheet =>
         let workbook := store_last workbook "Statistics" stats_sheet in
         save workbook file_path ;;
         ret true
     end)
    (fun e => print ("Error creating statistics sheet: " ++ e) ;; ret false).

(** The world after the handler of [create_statistics_sheet] has printed. *)
Definition failed (w : world) (e : string) : world :=
  {| fs := fs w;
     stdout := stdout w ++ ["Error creating statistics sheet: " ++ e] |}.

(** The workbook that [create_statistics_sheet] hands to [save]: the loaded
    one without its old "Statistics" sheet, and the rendered sheet last. *)
Definition saved_workbook (workbook : Workbook) (stats_sheet : Worksheet) : Workbook :=
  store_last
    (create_sheet
       (if bool_decide ("Statistics" ∈ sheetnames workbook)
        then delitem workbook "Statistics" else workbook)
       "Statistics")
    "Statistics" stats_sheet.


(** *** has_statistics_sheet *)


End ExcelProcessor.

(** ** get_column_info: what pandas reports about a column *)

Module info.
Import pd.

(** [str(s.dtype)] *)
Definition dtype_name (d : dtype) : string :=
  match d with
  | object => "object"
  | int64 => "int64"
  | float64 => "float64"
  | bool_ => "bool"
  | datetime64 => "datetime64[ns]"
  end.

(** [pd.api.types.is_numeric_dtype]: the number dtypes, and bool. *)
Definition is_numeric_dtype (s : Series) : bool :=
  match s_dtype s with
  | int64 | float64 | bool_ => true
  | _ => false
  end.

(** [s.isnull().sum()] *)
Definition isnull_sum (s : Series) : nat :=
  length (filter (fun c : cell => isna c = true) (s_values s)).

(** The present values of a column, in order. *)
Definition present (s : Series) : list value := omap id (s_values s).

(** The distinct values of a list, by [value_eqb]. *)
Fixpoint unique (xs : list value) : list value :=
  match xs with
  | [] => []
  | x :: xs' => if existsb (value_eqb x) (unique xs') then unique xs' else x :: unique xs'
  end.

(** [s.nunique()]: how many distinct present values. *)
Definition nunique (s : Series) : nat := length (unique (present s)).

(** The aggregates on a column of a numeric dtype; a bool counts as 0 or 1
    in sums, and least and greatest of a bool column are bools again. *)
Definition number_view (v : value) : option Q :=
  match v with
  | VNum q => Some q
  | VBool b => Some (if b then 1%Q else 0%Q)
  | _ => None
  end.

Definition number_values (s : Series) : list Q :=
  omap (fun c : cell => c ≫= number_view) (s_values s).

Definition back (s : Series) (q : Q) : value :=
  if decide (s_dtype s = bool_) then VBool (negb (Qeq_bool q 0)) else VNum q.

Definition mean (s : Series) : option Q :=
  match count s with
  | O => None
  | n => Some (foldr Qplus 0%Q (number_values s) / inject_Z (Z.of_nat n))%Q
  end.

Definition min (s : Series) : cell :=
  match number_values s with
  | [] => None
  | q :: qs => Some (back s (foldr Qmin q qs))
  end.

Definition max (s : Series) : cell :=
  match number_values s with
  | [] => None
  | q :: qs => Some (back s (foldr Qmax q qs))
  end.

(** Square roots are not rational: the root function is left open. *)
Class Roots : Type := { sqrt : Q -> Q }.

(** [s.std()]: the sample deviation, undefined below two values. *)
Definition std `{Roots} (s : Series) : option Q :=
  match mean s with
  | None => None
  | Some m =>
      match count s with
      | O | S O => None
      | S n =>
          Some (sqrt (foldr Qplus 0 (map (fun x => (x - m) * (x - m)) (number_values s))
                      / inject_Z (Z.of_nat n)))%Q
      end
  end.

(** The four extra keys of a numeric column. *)
Record numeric_info : Type := mkNumeric {
  ni_mean : option Q;
  ni_min : cell;
  ni_max : cell;
  ni_std : option Q
}.

(** The dict of one column; [ci_numeric] holds the keys [update] adds. *)
Record col_info : Type := mkInfo {
  ci_dtype : string;
  ci_non_null_count : nat;
  ci_null_count : nat;
  ci_unique_count : nat;
  ci_is_numeric : bool;
  ci_numeric : option numeric_info
}.


End info.

Module ColumnInfo.
Import pd openpyxl ExcelProcessor info.
Local Open Scope py_scope.

Section GetColumnInfo.
Context `{Parsers} `{Reader} `{Roots}.

(** The entry built for one column. *)
Definition entry (s : Series) : col_info :=
  {| ci_dtype := dtype_name (s_dtype s);
     ci_non_null_count := count s;
     ci_null_count := isnull_sum s;
     ci_unique_count := nunique s;
     ci_is_numeric := is_numeric_dtype s;
     ci_numeric :=
       if is_numeric_dtype s then
         Some {| ni_mean := info.mean s; ni_min := info.min s;
                 ni_max := info.max s; ni_std := std s |}
       else None |}.



End GetColumnInfo.
End ColumnInfo.

(** ** The Statistics sheet as a table of cells

    What the sheet written by [render] is meant to hold, row by row; the
    rendering itself is [ExcelProcessor.render]. *)

Module Layout.
Import pd openpyxl ExcelProcessor.

(** The numeric columns that get a row: those named in the selection, or
    all of them when nothing is selected. *)
Definition included (data : DataFrame) (selected_columns : list string) : list label :=
  filter (fun col : label =>
            label_in col selected_columns || bool_decide (selected_columns = []) = true)
         (select_number_columns data).

Definition only_A (c : string) (x : cell) : cell :=
  if decide (c = "A") then x else None.

Definition header_cell (c : string) : cell :=
  if decide (c = "A") then str "Column"
  else if decide (c = "B") then str "Count"
  else if decide (c = "C") then str "Mean"
  else if decide (c = "D") then str "Min"
  else if decide (c = "E") then str "Max"
  else if decide (c = "F") then str "Sum"
  else None.

(** The cells of the row of one column: its header, then count, mean to two
    places, min, max and sum over the present values, zeros when there are
    none.  [None] marks a column letter the row does not use. *)
Definition stats_cell (s : Series) (col : label) (c : string) : option cell :=
  if decide (c = "A") then Some (label_cell col)
  else if decide (c = "B") then Some (int (count s))
  else if decide (c = "C") then
    Some (if 0 <? count s then opt_num (round2 <$> mean s) else num 0)
  else if decide (c = "D") then Some (if 0 <? count s then opt_num (min s) else num 0)
  else if decide (c = "E") then Some (if 0 <? count s then opt_num (max s) else num 0)
  else if decide (c = "F") then Some (if 0 <? count s then num (sum s) else num 0)
  else None.

(** What the loop over the numeric columns writes at a cell, if anything,
    when it starts below row [row] and gives a row to each of [rows]. *)
Definition stats_written (data : DataFrame) (rows : list label) (row : nat)
    (c : string) (r : nat) : option cell :=
  (if decide (row < r) then rows !! (r - (row + 1)) else None) ≫= fun col =>
  getitem data col ≫= fun s => stats_cell s col c.

Definition stats_row_cell (data : DataFrame) (col : label) (c : string) : cell :=
  match getitem data col with
  | Some s => match stats_cell s col c with Some x => x | None => None end
  | None => None
  end.

Definition bullet_cell (selected_columns : list string) (i : nat) : cell :=
  match selected_columns !! i with
  | Some col => str ("• " ++ col)
  | None => None
  end.

Definition layout (data : DataFrame) (selected_columns : list string)
    (c : string) (r : nat) : cell :=
  let n := length selected_columns in
  let rows := included data selected_columns in
  let numeric := bool_decide (select_number_columns data <> []) in
  let last := if numeric then 11 + n + length rows else 8 + n in
  if decide (r = 1) then only_A c (str "Construction Project Statistics")
  else if decide (r = 3) then only_A c (str "Selected Columns for Analysis:")
  else if decide (4 <= r < 4 + n) then only_A c (bullet_cell selected_columns (r - 4))
  else if decide (r = 6 + n) then only_A c (str "Basic Statistics:")
  else if decide (r = 7 + n) then
    if decide (c = "A") then str "Total Records:"
    else if decide (c = "B") then int (len data) else None
  else if decide (r = 8 + n) then
    if decide (c = "A") then str "Total Columns:"
    else if decide (c = "B") then int (length (columns data)) else None
  else if decide (numeric = true /\ r = 10 + n) then
    only_A c (str "Numeric Column Statistics:")
  else if decide (numeric = true /\ r = 11 + n) then header_cell c
  else if decide (numeric = true /\ 12 + n <= r < 12 + n + length rows) then
    match rows !! (r - (12 + n)) with
    | Some col => stats_row_cell data col c
    | None => None
    end
  else if decide (r = last + 3) then
    only_A c (str "Note: Graphs are generated in the web application based on selected columns.")
  else if decide (r = last + 4) then
    only_A c (str "Use the PowerPoint export feature to generate presentation slides.")
  else None.

(** A column has a row in the statistics table: below the header row, a row
    that starts with its header and carries a count. *)
Definition has_stats_row (ws : Worksheet) (selected_columns : list string)
    (col : label) : Prop :=
  exists r, 11 + length selected_columns < r /\
            cell_values ws !! ("A", r) = label_cell col /\
            is_Some (cell_values ws !! ("B", r)).

End Layout.

(** ** What one column goes through in [_clean_dataframe]

    The two loops of the source, read column by column: the date pass on a
    header that mentions a date or a time, then the numeric pass on a column
    that is still of dtype object. *)

Module Column.
Import pd.
Section Steps.
Context `{Parsers}.

Definition date_named (col : label) : bool :=
  match col with
  | LStr s => contains "date" (lower s) || contains "time" (lower s)
  | LInt _ => false
  end.

Definition date_step (col : label) (s : Series) : Series :=
  if date_named col then to_datetime s else s.

Definition numeric_step (s : Series) : Series :=
  if decide (s_dtype s = object) then
    if negb (equals (to_numeric s) s) then to_numeric s else s
  else s.

(** Every present cell of [s] has become the date it parses to. *)
Definition fully_datetime (s s' : Series) : Prop :=
  s_dtype s' = datetime64 /\
  Forall2 (fun x y : cell =>
             match x with
             | None => y = None
             | Some v => exists d, datetime_of v = Some d /\ y = Some (VDate d)
             end) (s_values s) (s_values s').

(** Every present cell of [s] has become the number it parses to. *)
Definition fully_numeric (s s' : Series) : Prop :=
  is_number (s_dtype s') = true /\
  Forall2 (fun x y : cell =>
             match x with
             | None => y = None
             | Some v => exists q, number_of v = Some q /\ y = Some (VNum q)
             end) (s_values s) (s_values s').

Definition coerced (s s' : Series) : Prop :=
  s' = s \/ fully_datetime s s' \/ (s_dtype s = object /\ fully_numeric s s').


(** The frame [df] holds the columns of [df0], each related by [R]. *)
Definition columnwise (R : Series -> Series -> Prop) (df0 df : DataFrame) : Prop :=
  index df = index df0 /\
  Forall2 (fun a b : label * Series => a.1 = b.1 /\ R a.2 b.2) (columns df0) (columns df).

Definition dated (s s' : Series) : Prop := s' = s \/ fully_datetime s s'.

(** A header that is text, as [col.lower()] needs. *)
Definition is_text (col : label) : Prop :=
  match col with LStr _ => True | LInt _ => False end.

(** How a cell is held: the dtype of its column and its value. *)
Definition representation (s : Series) (i : nat) : dtype * cell := (s_dtype s, iat s i).

End Steps.
End Column.


Definition no_null_column (df : pd.DataFrame) : Prop :=
  forall ls, ls ∈ pd.columns df -> pd.col_all_na ls.2 = false.

(** ** The operating system as DriveConnector sees it *)

Module os.

Record stat_result : Type := mkStat { st_size : Z; st_mtime : Z; st_ctime : Z }.

(** What a path names: a directory with the names in it, or a file. *)
Inductive node : Type :=
| Dir (st : stat_result) (names : list string)
| File (st : stat_result).

Definition tree : Type := gmap string node.


(** [os.path.exists], [os.path.isdir], [os.listdir], [os.stat], on a POSIX
    system; of an error only the kind is kept, not the path Python appends
    to the message. *)
Definition exists_ (t : gmap string node) (path : string) : bool :=
  match t !! path with Some _ => true | None => false end.

Definition isdir (t : gmap string node) (path : string) : bool :=
  match t !! path with Some (Dir _ _) => true | _ => false end.

Definition listdir (t : gmap string node) (path : string) : result (list string) :=
  match t !! path with
  | Some (Dir _ names) => Ok names
  | Some (File _) => Raise "Not a directory"
  | None => Raise "No such file or directory"
  end.


Definition is_slash (a : ascii) : bool := Ascii.eqb a "/".

Fixpoint endswith_slash (s : string) : bool :=
  match s with
  | EmptyString => false
  | String a EmptyString => is_slash a
  | String _ s' => endswith_slash s'
  end.

(** [os.path.join(a, b)] *)
Definition join (a b : string) : string :=
  if String.prefix "/" b then b
  else if String.eqb a "" || endswith_slash a then a ++ b
  else a ++ "/" ++ b.

Fixpoint has_slash (s : string) : bool :=
  match s with
  | EmptyString => false
  | String a s' => is_slash a || has_slash s'
  end.

(** [(p[:i], p[i:])] for [i = p.rfind('/') + 1] *)
Fixpoint rsplit (p : string) : string * string :=
  match p with
  | EmptyString => (EmptyString, EmptyString)
  | String a p' =>
      if has_slash p' then (let '(head, tail) := rsplit p' in (String a head, tail))
      else if is_slash a then (String a EmptyString, p')
      else (EmptyString, String a p')
  end.

(** [os.path.basename] *)
Definition basename (p : string) : string := (rsplit p).2.

Fixpoint all_slashes (s : string) : bool :=
  match s with
  | EmptyString => true
  | String a s' => is_slash a && all_slashes s'
  end.

(** [s.rstrip('/')] *)
Fixpoint rstrip_slashes (s : string) : string :=
  match s with
  | EmptyString => EmptyString
  | String a s' => if all_slashes (String a s') then EmptyString
                   else String a (rstrip_slashes s')
  end.

(** [os.path.split] *)
Definition split (p : string) : string * string :=
  let '(head, tail) := rsplit p in
  (if negb (String.eqb head "") && negb (all_slashes head)
   then rstrip_slashes head else head, tail).

End os.

(** ** glob and fnmatch, for patterns made of text, [*] and [?] *)

Module glob.

Definition is_magic (a : ascii) : bool :=
  Ascii.eqb a "*" || Ascii.eqb a "?" || Ascii.eqb a "[".

Fixpoint has_magic (s : string) : bool :=
  match s with
  | EmptyString => false
  | String a s' => is_magic a || has_magic s'
  end.

(** [fnmatch.fnmatchcase]; the patterns of DriveConnector have no bracket. *)
Fixpoint fnmatch (pat : string) : string -> bool :=
  match pat with
  | EmptyString => fun name => String.eqb name ""
  | String c pat' =>
      if Ascii.eqb c "*" then
        fix star (name : string) : bool :=
          fnmatch pat' name
          || match name with
             | EmptyString => false
             | String _ name' => star name'
             end
      else if Ascii.eqb c "?" then
        fun name => match name with
                    | EmptyString => false
                    | String _ name' => fnmatch pat' name'
                    end
      else
        fun name => match name with
                    | EmptyString => false
                    | String d name' => Ascii.eqb c d && fnmatch pat' name'
                    end
  end.

Definition ishidden (name : string) : bool := String.prefix "." name.

(** The names of a directory that a pattern picks; none when the directory
    cannot be listed. *)
Definition glob1 (t : gmap string os.node) (dirname pattern : string) : list string :=
  match os.listdir t dirname with
  | Ok names =>
      let names := if ishidden pattern then names
                   else filter (fun x => ishidden x = false) names in
      filter (fun x => fnmatch pattern x = true) names
  | Raise _ => []
  end.

(** The one name asked for, when it is there. *)
Definition glob0 (t : gmap string os.node) (dirname basename : string) : list string :=
  if String.eqb basename ""
  then (if os.isdir t dirname then [basename] else [])
  else (if os.exists_ t (os.join dirname basename) then [basename] else []).

Section Glob.
(** The directories a pattern with wildcards stands for: left open. *)
Variable glob_dirs : gmap string os.node -> string -> list string.

(** [glob.glob(pathname)] *)
Definition glob (t : gmap string os.node) (pathname : string) : list string :=
  let '(dirname, basename) := os.split pathname in
  if negb (has_magic pathname) then
    if negb (String.eqb basename "")
    then (if os.exists_ t pathname then [pathname] else [])
    else (if os.isdir t dirname then [pathname] else [])
  else if String.eqb dirname "" then glob1 t "." basename
  else
    let dirs := if negb (String.eqb dirname pathname) && has_magic dirname
                then glob_dirs t dirname else [dirname] in
    let glob_in_dir := if has_magic basename then glob1 else glob0 in
    flat_map (fun dirname => map (os.join dirname) (glob_in_dir t dirname basename)) dirs.

End Glob.
End glob.

(** ** The class DriveConnector *)

Module DriveConnector.
Local Open Scope py_scope.

(** The drive is read, never written; only the console changes. *)
Definition console (A : Type) : Type := stateE (list string) A.

Definition print (msg : string) : console unit := modify (fun out => (out ++ [msg])%list).

(** [sorted(xs)] on strings. *)
Definition str_le (a b : string) : Prop := String.leb a b = true.

Global Instance str_le_dec (a b : string) : Decision (str_le a b).
Proof. unfold str_le. apply _. Defined.

Definition sorted (xs : list string) : list string := merge_sort str_le xs.

(** A folder as the application names it: some text that does not end with
    a slash. *)
Definition plain (p : string) : Prop :=
  p <> ""%string /\ os.endswith_slash p = false.

Section Drive.
Variable glob_dirs : gmap string os.node -> string -> list string.
Variable t : gmap string os.node.

Definition get_project_folders (construction_folder : string) : console (list string) :=
  try_except
    (if negb (os.exists_ t construction_folder) then ret []
     else
       match os.listdir t construction_folder with
       | Raise e => raise e
       | Ok items =>
           let folders :=
             foldl (fun folders item =>
                      let item_path := os.join construction_folder item in
                      if os.isdir t item_path then (folders ++ [item])%list else folders)
                   [] items in
           ret (sorted folders)
       end)
    (fun e => print ("Error getting project folders: " ++ e) ;; ret []).

Definition get_excel_files (project_path : string) : console (list string) :=
  try_except
    (if negb (os.exists_ t project_path) then ret []
     else
       let patterns := ["*.xlsx"; "*.xls"; "*.xlsm"] in
       let excel_files :=
         foldl (fun excel_files pattern =>
                  let files := glob.glob glob_dirs t (os.join project_path pattern) in
                  foldl (fun excel_files file_path =>
                           let filename := os.basename file_path in
                           if negb (String.prefix "~" filename)
                           then (excel_files ++ [filename])%list else excel_files)
                        excel_files files)
               [] patterns in
       ret (sorted (remove_dups excel_files)))
    (fun e => print ("Error getting Excel files: " ++ e) ;; ret []).

Definition get_file_path (construction_folder project filename : string) : string :=
  os.join (os.join construction_folder project) filename.



End Drive.
End DriveConnector.

(** ** Concrete parsers and a sample sheet, for the examples *)

Module Sample.
Import pd.

Definition digit (a : ascii) : option Z :=
  let n := nat_of_ascii a in
  if (48 <=? n) && (n <=? 57) then Some (Z.of_nat (n - 48)) else None.

Fixpoint digits (acc : Z) (s : string) : option Z :=
  match s with
  | EmptyString => Some acc
  | String a s' => match digit a with
                   | Some d => digits (acc * 10 + d) s'
                   | None => None
                   end
  end.

(** Unsigned decimal integers. *)
Definition decimal (s : string) : option Q :=
  match s with
  | EmptyString => None
  | _ => match digits 0 s with Some z => Some (inject_Z z) | None => None end
  end.

(** Dates written YYYY-MM-DD, numbered by their digits. *)
Definition iso_date (s : string) : option Z :=
  if (String.length s =? 10) && String.eqb (substring 4 1 s) "-"
     && String.eqb (substring 7 1 s) "-"
  then digits 0 (substring 0 4 s ++ substring 5 2 s ++ substring 8 2 s)
  else None.

Global Instance parsers : Parsers :=
  {| parse_datetime := iso_date; parse_number := decimal |}.

(** The sheet of the specification's example: Task, Cost, StartDate. *)
Definition projects : DataFrame :=
  {| index := [0; 1; 2];
     columns :=
       [ (LStr "Task", {| s_dtype := object;
                          s_values := [Some (VStr "Foundation"); Some (VStr "Framing"); None] |});
         (LStr "Cost", {| s_dtype := float64;
                          s_values := [Some (VNum 1000); None; None] |});
         (LStr "StartDate", {| s_dtype := object;
                               s_values := [Some (VStr "2024-01-05"); Some (VStr "2024-02-10"); None] |}) ] |}.

(** A reader for the examples: every sheet holds that table. *)
Global Instance reader : Reader.
Proof.
  refine {| parse_frame := fun _ => Ok projects |}.
  intros ws df Hdf. injection Hdf as <-.
  unfold wf. repeat constructor.
Defined.

Definition book : openpyxl.Workbook :=
  {| openpyxl.worksheets := [("Tasks", openpyxl.empty_sheet)] |}.

Definition disk : world :=
  {| fs := {[ "site.xlsx" := openpyxl.mkEntry (openpyxl.Xlsx book) openpyxl.Writable ]};
     stdout := [] |}.

(** The same file on a disk that fails in the middle of a write. *)
Definition full_disk : world :=
  {| fs := {[ "site.xlsx" := openpyxl.mkEntry (openpyxl.Xlsx book) openpyxl.Failing ]};
     stdout := [] |}.

(** A root for the examples: the whole part of the root of the whole part. *)
Global Instance roots : info.Roots :=
  {| info.sqrt := fun q => inject_Z (Z.sqrt (Qfloor q)) |}.

End Sample.

(** A shared drive, for the examples. *)
Module SampleDrive.

Definition folder_stat : os.stat_result :=
  {| os.st_size := 4096; os.st_mtime := 1730000000; os.st_ctime := 1720000000 |}.

Definition file_stat : os.stat_result :=
  {| os.st_size := 18432; os.st_mtime := 1730500000; os.st_ctime := 1725000000 |}.

Definition drive : gmap string os.node :=
  list_to_map
    [ ("/srv/construction",
       os.Dir folder_stat ["Bridge"; "readme.txt"; "Annex"]);
      ("/srv/construction/Bridge",
       os.Dir folder_stat ["report.xlsx"; "~$report.xlsx"; ".hidden.xls"; "notes.txt";
                           "plan.xlsm"; "old.xls"; "REPORT.XLSX"]);
      ("/srv/construction/Annex", os.Dir folder_stat []);
      ("/srv/construction/readme.txt", os.File file_stat);
      ("/srv/construction/Bridge/report.xlsx", os.File file_stat) ].

(** No pattern with a wildcard in a folder name is ever expanded here. *)
Definition no_dirs : gmap string os.node -> string -> list string := fun _ _ => [].

End SampleDrive.

(** * Properties *)

Import pd openpyxl ExcelProcessor.
Local Open Scope list_scope.

(** ** Dropping the empty rows and columns *)

Section Dropna.




Lemma length_boolean_index {A B : Type} (mask : list bool) (xs : list A) (ys : list B) :
  length xs = length mask -> length ys = length mask ->
  length (boolean_index mask xs) = length (boolean_index mask ys).
Proof.
  revert xs ys. induction mask as [|b mask IH]; intros [|x xs] [|y ys] Hx Hy;
    simplify_eq/=; try done.
  destruct b; simpl; eauto.
Qed.

Lemma row_all_na_false (df : DataFrame) (i : nat) :
  row_all_na df i = false <-> exists ls, ls ∈ columns df /\ isna (iat ls.2 i) = false.
Proof.
  unfold row_all_na. induction (columns df) as [|a l IH]; simpl.
  - split; [done | intros (ls & Hin & _); by apply elem_of_nil in Hin].
  - rewrite andb_false_iff, IH. split.
    + intros [Ha | (ls & Hin & Hls)]; [exists a | exists ls]; split; auto; by constructor.
    + intros (ls & Hin & Hls). apply elem_of_cons in Hin as [-> | Hin]; eauto.
Qed.


Lemma col_all_na_witness (s : Series) :
  col_all_na s = false -> exists i, i < length (s_values s) /\ isna (iat s i) = false.
Proof.
  unfold col_all_na, iat. induction (s_values s) as [|c l IH]; simpl; [done|].
  rewrite andb_false_iff. intros [Hc | Hl].
  - exists 0. split; [lia | done].
  - destruct (IH Hl) as (i & Hi & Hna). exists (S i). split; [lia | done].
Qed.

Lemma wf_dropna_rows (df : DataFrame) : wf df -> wf (dropna_rows df).
Proof.
  unfold wf, dropna_rows, len. simpl. intros Hwf.
  apply Forall_map. eapply Forall_impl; [exact Hwf|].
  intros [l s] Hs. simpl in *.
  apply length_boolean_index; rewrite length_map, length_seq; done.
Qed.


Lemma wf_dropna_cols (df : DataFrame) : wf df -> wf (dropna_cols df).
Proof.
  unfold wf, dropna_cols, len. simpl. intros Hwf.
  apply Forall_forall. intros ls Hin. apply list_elem_of_filter in Hin as [_ Hin].
  rewrite Forall_forall in Hwf. by apply Hwf.
Qed.


End Dropna.

(** ** The coercions, column by column *)

Section Coercion.
Context `{Parsers}.
Import Column.

Lemma convert_cells_Forall2 (f : value -> option value) (xs ys : list cell) :
  mapM (convert_cell f) xs = Some ys ->
  Forall2 (fun x y : cell =>
             match x with
             | None => y = None
             | Some v => exists v', f v = Some v' /\ y = Some v'
             end) xs ys.
Proof.
  intros Hm. apply mapM_Some in Hm.
  eapply Forall2_impl; [exact Hm|].
  intros [v|] y Hc; simpl in Hc; [|by simplify_eq].
  destruct (f v) as [v'|] eqn:E; simplify_eq. eauto.
Qed.

Lemma to_datetime_cases (s : Series) :
  to_datetime s = s \/ fully_datetime s (to_datetime s).
Proof.
  unfold to_datetime.
  destruct (mapM (convert_cell as_datetime) (s_values s)) as [ys|] eqn:E; [right | by left].
  split; [done|]. simpl.
  eapply Forall2_impl; [apply convert_cells_Forall2, E|].
  intros [v|] y; [|done]. intros (v' & Hv & ->).
  unfold as_datetime in Hv. destruct (datetime_of v) as [d|]; simplify_eq. eauto.
Qed.

Lemma to_numeric_cases (s : Series) :
  to_numeric s = s \/ fully_numeric s (to_numeric s).
Proof.
  unfold to_numeric.
  destruct (mapM (convert_cell as_number) (s_values s)) as [ys|] eqn:E; [right | by left].
  split.
  - simpl. unfold numeric_dtype. by case (forallb _ ys).
  - simpl. eapply Forall2_impl; [apply convert_cells_Forall2, E|].
    intros [v|] y; [|done]. intros (v' & Hv & ->).
    unfold as_number in Hv. destruct (number_of v) as [q|]; simplify_eq. eauto.
Qed.

(** Converting a converted column again changes nothing. *)
Lemma to_datetime_fixed (s s' : Series) :
  fully_datetime s s' -> to_datetime s' = s'.
Proof.
  intros [Hd Hv]. unfold to_datetime.
  assert (Hm : mapM (convert_cell as_datetime) (s_values s') = Some (s_values s')).
  { apply mapM_Some. clear Hd. induction Hv as [|x y xs ys Hxy _ IH]; constructor; [|done].
    destruct x as [v|]; [destruct Hxy as (d & _ & ->) | subst]; done. }
  rewrite Hm. destruct s'; simpl in *; by subst.
Qed.

Lemma fully_datetime_dtype (s s' : Series) :
  fully_datetime s s' -> s_dtype s' <> object.
Proof. intros [Hd _]. by rewrite Hd. Qed.

Lemma fully_numeric_dtype (s s' : Series) :
  fully_numeric s s' -> s_dtype s' <> object.
Proof. intros [Hd _] Ho. by rewrite Ho in Hd. Qed.


Lemma coerced_length (s s' : Series) :
  coerced s s' -> length (s_values s') = length (s_values s).
Proof.
  intros [-> | [[_ Hv] | [_ [_ Hv]]]]; [done | |]; symmetry; by eapply Forall2_length.
Qed.


End Coercion.

(** ** The two loops of [_clean_dataframe] *)

Section Loops.
Context `{Parsers}.
Import Column.

Lemma for_each_invariant {S A : Type} (Inv : S -> Prop) (body : A -> stateE S unit)
    (xs : list A) (s : S) :
  (forall x s, Inv s -> Inv (body x s).2) -> Inv s -> Inv (for_each xs body s).2.
Proof.
  intros Hbody. revert s. induction xs as [|x xs IH]; intros s Hs; simpl; [done|].
  unfold bind. pose proof (Hbody x s Hs) as Hx.
  destruct (body x s) as [[[]|e] s']; simpl in *; auto.
Qed.

Lemma getitem_unique (df : DataFrame) (col : label) (s : Series) :
  getitem df col = Some s ->
  forall b, b ∈ columns df -> b.1 = col -> b.2 = s.
Proof.
  unfold getitem. intros Hg b Hin Hb.
  assert (Hf : b ∈ filter (fun ls : label * Series => ls.1 = col) (columns df))
    by (by apply list_elem_of_filter).
  destruct (filter _ (columns df)) as [|ls [|ls' l]]; simplify_eq.
  by apply list_elem_of_singleton in Hf as ->.
Qed.

Lemma getitem_elem (df : DataFrame) (col : label) (s : Series) :
  getitem df col = Some s -> (col, s) ∈ columns df.
Proof.
  unfold getitem. intros Hg.
  destruct (filter _ (columns df)) as [|ls [|ls' l]] eqn:E; simplify_eq.
  assert (Hin : ls ∈ filter (fun ls : label * Series => ls.1 = col) (columns df))
    by (rewrite E; by constructor).
  apply list_elem_of_filter in Hin as [Hl Hin]. destruct ls; simpl in *; by subst.
Qed.

Lemma columnwise_setitem (R : Series -> Series -> Prop) (df0 df : DataFrame)
    (col : label) (s s' : Series) :
  columnwise R df0 df -> getitem df col = Some s ->
  (forall s0, R s0 s -> R s0 s') ->
  columnwise R df0 (setitem df col s').
Proof.
  intros [Hi HF] Hg HR. split; [done|]. simpl.
  pose proof (getitem_unique _ _ _ Hg) as Hu.
  revert Hu. generalize (columns df) HF. clear HF Hg.
  intros l HF. induction HF as [|a b l0 l1 [Hab Hr] _ IH]; intros Hu; simpl; constructor.
  - case_decide as Hc; simpl; [|done]. split; [done|].
    apply HR. rewrite <- (Hu b); [done | by constructor | done].
  - apply IH. intros b' Hin. apply Hu. by constructor.
Qed.

Lemma columnwise_refl (R : Series -> Series -> Prop) (df : DataFrame) :
  (forall s, R s s) -> columnwise R df df.
Proof.
  intros HR. split; [done|]. induction (columns df); constructor; auto.
Qed.

Lemma columnwise_impl (R R' : Series -> Series -> Prop) (df0 df : DataFrame) :
  (forall s s', R s s' -> R' s s') -> columnwise R df0 df -> columnwise R' df0 df.
Proof.
  intros HR [Hi HF]. split; [done|].
  eapply Forall2_impl; [exact HF|]. intros a b [? ?]; auto.
Qed.

Lemma columnwise_labels (R : Series -> Series -> Prop) (df0 df : DataFrame) :
  columnwise R df0 df -> labels df = labels df0.
Proof.
  intros [_ HF]. unfold labels.
  induction HF as [|a b l0 l1 [Hab _] _ IH]; [done|]. by rewrite !fmap_cons, IH, Hab.
Qed.

(** The date pass leaves every column as it was or fully dated. *)
Lemma convert_date_column_dated (df0 : DataFrame) (col : label) (df : DataFrame) :
  columnwise dated df0 df -> columnwise dated df0 (convert_date_column col df).2.
Proof.
  intros Hinv. unfold convert_date_column, bind, col_lower.
  destruct col as [n|z]; simpl; [|done].
  destruct (contains "date" (lower n) || contains "time" (lower n)); simpl; [|done].
  unfold try_except, bind, series_of.
  destruct (getitem df (LStr n)) as [s|] eqn:Hg; simpl; [|done].
  eapply columnwise_setitem; [done | done |].
  intros s0 [-> | Hd].
  - destruct (to_datetime_cases s0) as [-> | ?]; [by left | by right].
  - rewrite (to_datetime_fixed _ _ Hd). by right.
Qed.

(** The numeric pass touches object columns only: a dated column stays. *)
Lemma convert_numeric_column_coerced (df0 : DataFrame) (col : label) (df : DataFrame) :
  columnwise coerced df0 df -> columnwise coerced df0 (convert_numeric_column col df).2.
Proof.
  intros Hinv. unfold convert_numeric_column, bind, series_of.
  destruct (getitem df col) as [s|] eqn:Hg; simpl; [|done].
  case_decide as Ho; simpl; [|done].
  destruct (equals (to_numeric s) s); simpl; [done|].
  eapply columnwise_setitem; [done | done |].
  intros s0 [-> | [Hd | [_ Hn]]].
  - destruct (to_numeric_cases s0) as [-> | ?]; [by left | right; right; done].
  - by destruct (fully_datetime_dtype _ _ Hd).
  - by destruct (fully_numeric_dtype _ _ Hn).
Qed.

Lemma dated_coerced (s s' : Series) : dated s s' -> coerced s s'.
Proof. intros [-> | ?]; [by left | right; by left]. Qed.

(** Whatever happens in the body, the frame it leaves holds the columns that
    survived [dropna], each unchanged or converted as a whole. *)
Lemma clean_body_coerced (df : DataFrame) :
  columnwise coerced (dropna_cols (dropna_rows df)) (clean_body df).2.
Proof.
  unfold clean_body, bind, modify, gets. simpl.
  set (df0 := dropna_cols (dropna_rows df)).
  pose proof (for_each_invariant (columnwise dated df0) convert_date_column (labels df0) df0
    (convert_date_column_dated df0) (columnwise_refl _ _ (fun s => or_introl eq_refl))) as Hd.
  destruct (for_each (labels df0) convert_date_column df0) as [[[]|e] df1]; simpl in *.
  - apply for_each_invariant; [apply convert_numeric_column_coerced|].
    eapply columnwise_impl; [apply dated_coerced | done].
  - eapply columnwise_impl; [apply dated_coerced | done].
Qed.

(** [_clean_dataframe] never raises: a failure inside is printed. *)
Lemma clean_dataframe_returns (df : DataFrame) (w : world) :
  exists w', _clean_dataframe df w = (Ok (clean_body df).2, w').
Proof.
  unfold _clean_dataframe. destruct (clean_body df) as [[[]|e] df']; simpl.
  - by eexists.
  - unfold bind, print, modify, ret. by eexists.
Qed.


End Loops.

(** ** The loops on a frame whose headers are distinct texts *)

Section Exact.
Context `{Parsers}.
Import Column.

Lemma setitem_same (df : DataFrame) (col : label) (s : Series) :
  getitem df col = Some s -> setitem df col s = df.
Proof.
  intros Hg. pose proof (getitem_unique _ _ _ Hg) as Hu.
  destruct df as [idx cols]. unfold setitem. simpl in *. f_equal.
  clear Hg. induction cols as [|b cols IH]; simpl; [done|].
  rewrite IH by (intros b' Hin; apply Hu; by constructor).
  f_equal. case_decide as Hc; [|done].
  rewrite <- (Hu b); [by destruct b | by constructor | done].
Qed.

Lemma filter_label_nil (col : label) (l : list (label * Series)) :
  col ∉ l.*1 -> filter (fun ls : label * Series => ls.1 = col) l = [].
Proof.
  induction l as [|b l IH]; intros Hnin; [done|].
  rewrite fmap_cons, not_elem_of_cons in Hnin. destruct Hnin as [Hb Hl].
  rewrite filter_cons_False by (simpl; congruence). auto.
Qed.

Lemma map_setitem_other (col : label) (s : Series) (l : list (label * Series)) :
  col ∉ l.*1 ->
  map (fun ls : label * Series => if decide (ls.1 = col) then (ls.1, s) else ls) l = l.
Proof.
  induction l as [|b l IH]; intros Hnin; [done|].
  rewrite fmap_cons, not_elem_of_cons in Hnin. destruct Hnin as [Hb Hl].
  simpl. rewrite IH by done. case_decide; [congruence | done].
Qed.

Lemma getitem_middle (idx : list nat) (pre post : list (label * Series))
    (col : label) (s : Series) :
  NoDup ((pre ++ (col, s) :: post).*1) ->
  getitem {| index := idx; columns := pre ++ (col, s) :: post |} col = Some s.
Proof.
  rewrite fmap_app, fmap_cons. simpl. intros Hnd.
  apply NoDup_app in Hnd as (_ & Hpre & Hpost).
  apply NoDup_cons in Hpost as [Hpost _].
  unfold getitem. simpl.
  rewrite filter_app, filter_cons_True by done.
  rewrite !filter_label_nil; [done | done |].
  intros Hin. apply (Hpre col Hin). by constructor.
Qed.

Lemma setitem_middle (idx : list nat) (pre post : list (label * Series))
    (col : label) (s s' : Series) :
  NoDup ((pre ++ (col, s) :: post).*1) ->
  setitem {| index := idx; columns := pre ++ (col, s) :: post |} col s'
  = {| index := idx; columns := pre ++ (col, s') :: post |}.
Proof.
  rewrite fmap_app, fmap_cons. simpl. intros Hnd.
  apply NoDup_app in Hnd as (_ & Hpre & Hpost).
  apply NoDup_cons in Hpost as [Hpost _].
  unfold setitem. simpl. f_equal.
  rewrite map_app. simpl. rewrite decide_True by done.
  rewrite !map_setitem_other; [done | done |].
  intros Hin. apply (Hpre col Hin). by constructor.
Qed.

(** A loop whose pass over a header replaces that column by [f] of it. *)
Lemma for_each_columns (f : label -> Series -> Series) (body : label -> stateE DataFrame unit) :
  (forall df col s, is_text col -> getitem df col = Some s ->
     body col df = (Ok tt, setitem df col (f col s))) ->
  forall (idx : list nat) (post pre : list (label * Series)),
    NoDup ((pre ++ post).*1) -> Forall is_text (post.*1) ->
    for_each (post.*1) body {| index := idx; columns := pre ++ post |}
    = (Ok tt, {| index := idx;
                 columns := pre ++ map (fun ls : label * Series => (ls.1, f ls.1 ls.2)) post |}).
Proof.
  intros Hbody idx post. induction post as [|[col s] post IH]; intros pre Hnd Htext; [done|].
  rewrite fmap_cons in Htext. apply Forall_cons in Htext as [Hcol Htext].
  rewrite fmap_cons. simpl. unfold bind.
  rewrite (Hbody _ col s Hcol (getitem_middle idx pre post col s Hnd)).
  rewrite (setitem_middle idx pre post col s (f col s) Hnd).
  replace (pre ++ (col, f col s) :: post) with ((pre ++ [(col, f col s)]) ++ post)
    by (by rewrite <- app_assoc).
  rewrite IH; [by rewrite <- app_assoc | | done].
  rewrite <- app_assoc. simpl.
  by rewrite fmap_app, fmap_cons in Hnd |- *.
Qed.

Lemma convert_date_column_step (df : DataFrame) (col : label) (s : Series) :
  is_text col -> getitem df col = Some s ->
  convert_date_column col df = (Ok tt, setitem df col (date_step col s)).
Proof.
  intros Ht Hg. destruct col as [n|z]; [|done].
  unfold convert_date_column, date_step, date_named, bind, col_lower. simpl.
  destruct (contains "date" (lower n) || contains "time" (lower n)).
  - unfold try_except, bind, series_of. by rewrite Hg.
  - unfold ret. by rewrite (setitem_same _ _ _ Hg).
Qed.

Lemma convert_numeric_column_step (df : DataFrame) (col : label) (s : Series) :
  is_text col -> getitem df col = Some s ->
  convert_numeric_column col df = (Ok tt, setitem df col (numeric_step s)).
Proof.
  intros _ Hg. unfold convert_numeric_column, numeric_step, bind, series_of.
  rewrite Hg. case_decide; [|unfold ret; by rewrite (setitem_same _ _ _ Hg)].
  destruct (equals (to_numeric s) s); simpl; [|done].
  unfold ret. by rewrite (setitem_same _ _ _ Hg).
Qed.

Lemma labels_dropna (df : DataFrame) :
  labels (dropna_cols (dropna_rows df)) `sublist_of` labels df.
Proof.
  unfold labels, dropna_cols, dropna_rows. simpl.
  etrans; [apply fmap_sublist, sublist_filter|].
  rewrite <- list_fmap_compose. simpl.
  by erewrite list_fmap_ext; [|intros ? [? ?]; reflexivity].
Qed.

(** On such a frame both loops run to the end, and every column that
    survived [dropna] went through the date step, then the numeric step. *)
Lemma clean_body_exact (df : DataFrame) :
  NoDup (labels df) -> Forall is_text (labels df) ->
  clean_body df
  = (Ok tt, {| index := index (dropna_rows df);
               columns := map (fun ls : label * Series =>
                                 (ls.1, numeric_step (date_step ls.1 ls.2)))
                              (columns (dropna_cols (dropna_rows df))) |}).
Proof.
  intros Hnd Htext.
  assert (Hnd0 : NoDup (labels (dropna_cols (dropna_rows df))))
    by (eapply sublist_NoDup; [done | apply labels_dropna]).
  assert (Htext0 : Forall is_text (labels (dropna_cols (dropna_rows df))))
    by (rewrite Forall_forall in Htext |- *; intros l Hl; apply Htext;
        eapply elem_of_sublist; [done | apply labels_dropna]).
  assert (Hidx : index (dropna_rows df) = index (dropna_cols (dropna_rows df))) by done.
  rewrite Hidx. clear Hidx.
  unfold clean_body, bind, modify, gets.
  remember (dropna_cols (dropna_rows df)) as df0 eqn:E. clear E.
  destruct df0 as [idx cols]. unfold labels in *. cbn [columns index] in *.
  pose proof (for_each_columns date_step convert_date_column convert_date_column_step
                idx cols [] Hnd0 Htext0) as Hd.
  simpl in Hd. rewrite Hd. clear Hd.
  set (cols1 := map (fun ls : label * Series => (ls.1, date_step ls.1 ls.2)) cols).
  assert (Hl : cols1.*1 = cols.*1).
  { unfold cols1. rewrite <- list_fmap_compose. by apply list_fmap_ext. }
  cbn [columns]. rewrite <- Hl in Hnd0, Htext0.
  pose proof (for_each_columns (fun _ => numeric_step) convert_numeric_column
                convert_numeric_column_step idx cols1 [] Hnd0 Htext0) as Hn.
  simpl in Hn. rewrite Hn. clear Hn.
  do 2 f_equal. unfold cols1. rewrite <- list_fmap_compose.
  by apply list_fmap_ext.
Qed.

End Exact.

(** ** The read operations *)

Section Reading.
Context `{Parsers} `{Reader}.

Lemma load_workbook_world (file_path : string) (w : world) :
  (load_workbook file_path w).2 = w.
Proof.
  unfold load_workbook. destruct (fs w !! file_path) as [e|]; [|done].
  by destruct (content e).
Qed.

Lemma read_excel_world (file_path sheet_name : string) (w : world) :
  (read_excel file_path sheet_name w).2 = w.
Proof.
  unfold read_excel, bind. pose proof (load_workbook_world file_path w) as Hw.
  destruct (load_workbook file_path w) as [[wb|e] w1]; simpl in *; subst; [|done].
  by destruct (find_sheet sheet_name (worksheets wb)).
Qed.

Lemma get_sheet_names_cases (file_path : string) (w : world) :
  (exists wb, load_workbook file_path w = (Ok wb, w) /\
              get_sheet_names file_path w = (Ok (sheetnames wb), w))
  \/ (exists e, load_workbook file_path w = (Raise e, w) /\
                get_sheet_names file_path w
                = (Ok [], {| fs := fs w;
                             stdout := stdout w ++ [("Error getting sheet names: " ++ e)%string] |})).
Proof.
  unfold get_sheet_names, try_except, bind.
  pose proof (load_workbook_world file_path w) as Hw.
  destruct (load_workbook file_path w) as [[wb|e] w1]; simpl in *; subst; [left | right]; eauto.
Qed.

Lemma load_sheet_data_cases (file_path sheet_name : string) (w : world) :
  (exists df w', read_excel file_path sheet_name w = (Ok df, w) /\
                 load_sheet_data file_path sheet_name w = (Ok (Some (clean_body df).2), w'))
  \/ (exists e, read_excel file_path sheet_name w = (Raise e, w) /\
                load_sheet_data file_path sheet_name w
                = (Ok None, {| fs := fs w;
                               stdout := stdout w ++ [("Error loading sheet data: " ++ e)%string] |})).
Proof.
  unfold load_sheet_data, try_except, bind.
  pose proof (read_excel_world file_path sheet_name w) as Hw.
  destruct (read_excel file_path sheet_name w) as [[df|e] w1]; simpl in *; subst;
    [left | right; eauto].
  exists df. destruct (clean_dataframe_returns df w) as [w' Hc].
  rewrite Hc. simpl. eauto.
Qed.


End Reading.

(** ** Reading and cleaning: the stated properties *)



Section CleaningFacts.
Context `{Parsers}.
Import Column.



Lemma dropna_cols_no_null_column (df : DataFrame) : no_null_column (dropna_cols df).
Proof. intros ls Hin. by apply list_elem_of_filter in Hin as [? _]. Qed.

Lemma to_numeric_changed (s : Series) :
  to_numeric s <> s -> is_number (s_dtype (to_numeric s)) = true.
Proof.
  intros Hne. destruct (to_numeric_cases s) as [? | [? _]]; [done | done].
Qed.

Lemma date_step_dated (col : label) (s : Series) : dated s (date_step col s).
Proof.
  unfold date_step. destruct (date_named col); [|by left].
  destruct (to_datetime_cases s) as [-> | ?]; [by left | by right].
Qed.

End CleaningFacts.


(** C6. In [_clean_dataframe], on a frame whose headers are distinct texts,
    the numeric pass finds each column as the date pass left it; when that
    column is of dtype object it is replaced by its numeric reading only if
    the reading is not equal to the column, and then the representation of
    a cell (its dtype and value) has changed; when the reading equals the
    column, the column stays as it was, of dtype object. *)
Theorem numeric_coercion_only_when_it_changes `{Parsers} (df : DataFrame) (w : world) :
  NoDup (labels df) -> Forall Column.is_text (labels df) ->
  exists df' w',
    _clean_dataframe df w = (Ok df', w') /\
    Forall2 (fun a b : label * Series =>
               a.1 = b.1 /\
               let s := Column.date_step a.1 a.2 in
               b.2 = Column.numeric_step s /\
               (s_dtype s = object ->
                 (equals (to_numeric s) s = true -> b.2 = s /\ s_dtype b.2 = object) /\
                 (b.2 <> s ->
                    b.2 = to_numeric s /\ equals (to_numeric s) s = false /\
                    exists i, i < length (s_values s) /\
                              Column.representation b.2 i <> Column.representation s i)))
            (columns (dropna_cols (dropna_rows df))) (columns df').
Proof.
  intros Hnd Htext.
  destruct (clean_dataframe_returns df w) as [w' Hc].
  exists (clean_body df).2, w'. split; [done|].
  rewrite (clean_body_exact df Hnd Htext). cbn [snd columns].
  pose proof (dropna_cols_no_null_column (dropna_rows df)) as Hcol.
  unfold no_null_column in Hcol. revert Hcol.
  generalize (columns (dropna_cols (dropna_rows df))). intros l Hcol.
  induction l as [|a l IH]; simpl; constructor.
  - split; [done|]. simpl. split; [done|]. intros Ho.
    unfold Column.numeric_step. rewrite decide_True by done.
    destruct (equals (to_numeric (Column.date_step a.1 a.2)) (Column.date_step a.1 a.2)) eqn:E;
      simpl; split; try done.
    intros Hne. repeat split.
    assert (Hca : col_all_na a.2 = false) by (apply Hcol; by constructor).
    apply col_all_na_witness in Hca as (i & Hi & _).
    exists i. split.
    + rewrite (coerced_length a.2); [done|]. apply dated_coerced, date_step_dated.
    + unfold Column.representation. intros Heq. injection Heq as Hd _.
      pose proof (to_numeric_changed _ Hne) as Hn. rewrite Hd, Ho in Hn. done.
  - apply IH. intros ls Hin. apply Hcol. by constructor.
Qed.

Lemma numeric_coercion_only_when_it_changes_witness :
  exists df' w',
    _clean_dataframe Sample.projects Sample.disk = (Ok df', w') /\
    Forall2 (fun a b : label * Series =>
               a.1 = b.1 /\
               let s := Column.date_step a.1 a.2 in
               b.2 = Column.numeric_step s /\
               (s_dtype s = object ->
                 (equals (to_numeric s) s = true -> b.2 = s /\ s_dtype b.2 = object) /\
                 (b.2 <> s ->
                    b.2 = to_numeric s /\ equals (to_numeric s) s = false /\
                    exists i, i < length (s_values s) /\
                              Column.representation b.2 i <> Column.representation s i)))
            (columns (dropna_cols (dropna_rows Sample.projects))) (columns df').
Proof.
  apply (numeric_coercion_only_when_it_changes Sample.projects Sample.disk).
  - apply (bool_decide_unpack _). vm_compute. exact I.
  - repeat constructor.
Defined.

(** C8. The read operations never raise.  [get_sheet_names] always returns a
    list, the empty one when the workbook cannot be opened;
    [load_sheet_data] always returns a frame or [None], [None] when the
    sheet cannot be read; in both cases the error is printed and the files
    are left alone. *)
Theorem read_operations_never_raise `{Parsers} `{Reader}
    (file_path sheet_name : string) (w : world) :
  (exists names w',
     get_sheet_names file_path w = (Ok names, w') /\ fs w' = fs w /\
     forall e, (load_workbook file_path w).1 = Raise e ->
               names = [] /\
               stdout w' = stdout w ++ [("Error getting sheet names: " ++ e)%string])
  /\ (exists r w',
        load_sheet_data file_path sheet_name w = (Ok r, w') /\
        forall e, (read_excel file_path sheet_name w).1 = Raise e ->
                  r = None /\ fs w' = fs w /\
                  stdout w' = stdout w ++ [("Error loading sheet data: " ++ e)%string]).
Proof.
  split.
  - destruct (get_sheet_names_cases file_path w) as [(wb & Hl & Hg) | (e & Hl & Hg)];
      rewrite Hg, Hl; do 2 eexists; (split; [done|]); (split; [done|]); simpl.
    + done.
    + by intros e' [= <-].
  - destruct (load_sheet_data_cases file_path sheet_name w)
      as [(df & w' & Hr & Hl) | (e & Hr & Hl)];
      rewrite Hl, Hr; do 2 eexists; (split; [done|]); simpl.
    + done.
    + by intros e' [= <-].
Qed.

(** ** Writing the Statistics sheet into the workbook *)

Section Writing.

(** The three ways the body can go: the load fails, the rendering fails, or
    the workbook reaches [save]. *)
Lemma create_statistics_sheet_cases (file_path : string) (data : DataFrame)
    (selected_columns : list string) (w : world) :
  create_statistics_sheet file_path data selected_columns w
  = match load_workbook file_path w with
    | (Raise e, _) => (Ok false, failed w e)
    | (Ok workbook, _) =>
        match render data selected_columns empty_sheet with
        | Raise e => (Ok false, failed w e)
        | Ok stats_sheet =>
            match save (saved_workbook workbook stats_sheet) file_path w with
            | (Ok _, w') => (Ok true, w')
            | (Raise e, w') => (Ok false, failed w' e)
            end
        end
    end.
Proof.
  unfold create_statistics_sheet, try_except, bind.
  pose proof (load_workbook_world file_path w) as Hw.
  destruct (load_workbook file_path w) as [[wb|e] w1]; simpl in *; subst; [|done].
  destruct (render data selected_columns empty_sheet) as [ws|e]; [|done].
  unfold saved_workbook.
  by destruct (save _ file_path w) as [[[]|e] w'].
Qed.











End Writing.

Section WritingFacts.



End WritingFacts.



(** C7. [create_statistics_sheet] never raises: it returns true or false.
    It returns true only when the workbook was loaded, the sheet rendered and
    the workbook saved; when it returns false the error of the step that
    failed has been printed.  Nothing makes the write atomic: there is a
    world in which the call returns false and leaves the file changed. *)
Theorem create_statistics_sheet_failures (file_path : string) (data : DataFrame)
    (selected_columns : list string) (w : world) :
  (exists b w',
     create_statistics_sheet file_path data selected_columns w = (Ok b, w') /\
     (b = true ->
        exists wb stats_sheet,
          load_workbook file_path w = (Ok wb, w) /\
          render data selected_columns empty_sheet = Ok stats_sheet /\
          save (saved_workbook wb stats_sheet) file_path w = (Ok tt, w')) /\
     (b = false ->
        exists e,
          stdout w' = stdout w ++ [("Error creating statistics sheet: " ++ e)%string] /\
          ((load_workbook file_path w).1 = Raise e /\ fs w' = fs w
           \/ render data selected_columns empty_sheet = Raise e /\ fs w' = fs w
           \/ exists wb stats_sheet,
                load_workbook file_path w = (Ok wb, w) /\
                render data selected_columns empty_sheet = Ok stats_sheet /\
                (save (saved_workbook wb stats_sheet) file_path w).1 = Raise e /\
                fs w' = fs (save (saved_workbook wb stats_sheet) file_path w).2)))
  /\ (exists data0 selected0 w0 w0',
        create_statistics_sheet file_path data0 selected0 w0 = (Ok false, w0') /\
        fs w0' !! file_path <> fs w0 !! file_path).
Proof.
  split.
  - rewrite create_statistics_sheet_cases.
    pose proof (load_workbook_world file_path w) as Hw.
    destruct (load_workbook file_path w) as [[wb|e] w1] eqn:Hl; simpl in *; subst.
    + destruct (render data selected_columns empty_sheet) as [ws|e] eqn:Hr.
      * destruct (save (saved_workbook wb ws) file_path w) as [[[]|e] w1] eqn:Hs.
        -- do 2 eexists. split; [done|]. split; [|done]. intros _. by exists wb, ws.
        -- do 2 eexists. split; [done|]. split; [done|]. intros _. exists e.
           split.
           ++ simpl. unfold save in Hs.
              destruct (fs w !! file_path) as [en|]; [|done].
              destruct (mode en); simplify_eq; done.
           ++ right. right. exists wb, ws. by rewrite Hs.
      * do 2 eexists. split; [done|]. split; [done|]. intros _. exists e.
        split; [done|]. right. left. done.
    + do 2 eexists. split; [done|]. split; [done|]. intros _. exists e.
      split; [done|]. left. done.
  - exists {| index := []; columns := [] |}, [],
      {| fs := {[ file_path := mkEntry (Xlsx {| worksheets := [] |}) Failing ]};
         stdout := [] |}.
    eexists. split.
    + rewrite create_statistics_sheet_cases. unfold load_workbook, save. simpl.
      rewrite lookup_singleton_eq. simpl. reflexivity.
    + simpl. rewrite lookup_insert_eq, lookup_singleton_eq. done.
Qed.


(** ** Rendering the sheet *)

Ltac resolve_decide :=
  match goal with
  | |- context [decide ?P] =>
      first [ rewrite (decide_True (P := P)) by (lia || done || (split; [lia | done]))
            | rewrite (decide_False (P := P))
                by (lia || done || (intros [? ?]; (lia || done))) ]
  end.

Ltac split_hyps :=
  repeat match goal with
         | H : _ /\ _ |- _ => destruct H
         | H : ~ (?P /\ ?Q) |- _ =>
             first [ assert (~ Q)
                       by (intros ?; apply H; split; [(lia || done) | assumption]); clear H
                   | assert (~ P) by (lia || done); clear H ]
         end.

Ltac by_rows :=
  repeat (repeat resolve_decide; try (case_decide; split_hyps; simplify_eq));
  try done; try (exfalso; lia).

(** Settle the goal for the rows where [P] holds, go on with the others. *)
Ltac zone P := destruct (decide P); [by_rows|].

Section Rendering.
Import Layout.

Lemma lookup_setvalue (c0 : string) (r0 : nat) (x : cell) (ws : Worksheet)
    (c : string) (r : nat) :
  cell_values (setvalue c0 r0 x ws) !! (c, r)
  = if decide (r0 = r /\ c0 = c) then x else cell_values ws !! (c, r).
Proof.
  unfold setvalue. simpl. destruct x as [v|].
  - rewrite lookup_insert. repeat case_decide; destruct_and?; simplify_eq; try done.
    exfalso. auto.
  - rewrite lookup_delete. repeat case_decide; destruct_and?; simplify_eq; try done.
    exfalso. auto.
Qed.

Lemma values_setfont (c0 : string) (r0 : nat) (f : Font) (ws : Worksheet) :
  cell_values (setfont c0 r0 f ws) = cell_values ws.
Proof. done. Qed.

Lemma values_bold_headers (row : nat) (l : list string) (ws : Worksheet) :
  cell_values (foldl (fun ws col => setfont col row font_bold ws) ws l) = cell_values ws.
Proof. revert ws. induction l as [|c l IH]; intros ws; simpl; [done|]. by rewrite IH. Qed.

Lemma foldl_bullet (selected_columns : list string) (ws : Worksheet) (row : nat) :
  (foldl bullet (ws, row) selected_columns).2 = row + length selected_columns /\
  forall c r,
    cell_values (foldl bullet (ws, row) selected_columns).1 !! (c, r)
    = if decide (c = "A" /\ row <= r < row + length selected_columns)
      then bullet_cell selected_columns (r - row)
      else cell_values ws !! (c, r).
Proof.
  revert ws row. induction selected_columns as [|col l IH]; intros ws row.
  - simpl. split; [lia|]. intros c r. rewrite decide_False by lia. done.
  - cbn [foldl bullet].
    destruct (IH (setvalue "A" row (str ("• " ++ col)) ws) (row + 1)) as [Hr Hv].
    split; [rewrite Hr; simpl; lia|].
    intros c r. rewrite Hv, lookup_setvalue. simpl length.
    destruct (decide (c = "A" /\ row + 1 <= r < row + 1 + length l)) as [[-> Hin]|Hout].
    + rewrite decide_True by (split; [done | lia]).
      unfold bullet_cell. replace (r - row) with (S (r - (row + 1))) by lia. done.
    + destruct (decide (row = r /\ "A" = c)) as [[<- <-]|Hk].
      * rewrite decide_True by (split; [done | lia]).
        unfold bullet_cell. by rewrite Nat.sub_diag.
      * rewrite decide_False; [done|]. intros [-> Hin].
        destruct (decide (r = row)) as [->|]; [by apply Hk|]. apply Hout. split; [done | lia].
Qed.

Lemma stats_row_included (data : DataFrame) (selected_columns : list string)
    (ws : Worksheet) (row : nat) (col : label) (s : Series) :
  label_in col selected_columns || bool_decide (selected_columns = []) = true ->
  getitem data col = Some s ->
  exists ws',
    stats_row data selected_columns (ws, row) col = Ok (ws', row + 1) /\
    forall c r,
      cell_values ws' !! (c, r)
      = match (if decide (r = row + 1) then stats_cell s col c else None) with
        | Some x => x
        | None => cell_values ws !! (c, r)
        end.
Proof.
  intros Hin Hg. unfold stats_row. rewrite Hin, Hg. eexists. split; [done|].
  intros c r. rewrite !lookup_setvalue. unfold stats_cell.
  destruct (decide (r = row + 1)) as [->|Hr]; by_rows.
Qed.

Lemma stats_row_excluded (data : DataFrame) (selected_columns : list string)
    (st : Worksheet * nat) (col : label) :
  label_in col selected_columns || bool_decide (selected_columns = []) = false ->
  stats_row data selected_columns st col = Ok st.
Proof. intros Hout. unfold stats_row. destruct st. by rewrite Hout. Qed.

(** The loop over the numeric columns writes one row per included column,
    one under the other, and nothing else. *)
Lemma stats_rows_lookup (data : DataFrame) (selected_columns : list string)
    (cols : list label) (ws : Worksheet) (row : nat) :
  let rows := filter (fun col : label =>
                        label_in col selected_columns
                        || bool_decide (selected_columns = []) = true) cols in
  (forall col, col ∈ rows -> is_Some (getitem data col)) ->
  exists ws',
    stats_rows data selected_columns cols (ws, row) = Ok (ws', row + length rows) /\
    forall c r,
      cell_values ws' !! (c, r)
      = match stats_written data rows row c r with
        | Some x => x
        | None => cell_values ws !! (c, r)
        end.
Proof.
  revert ws row. induction cols as [|col cols IH]; intros ws row rows Hget.
  - exists ws. split; [simpl; f_equal; f_equal; lia|].
    intros c r. unfold stats_written, rows. rewrite filter_nil. by case_decide.
  - destruct (label_in col selected_columns || bool_decide (selected_columns = [])) eqn:Hc.
    + assert (Hrows : rows = col :: filter (fun col : label =>
                        label_in col selected_columns
                        || bool_decide (selected_columns = []) = true) cols)
        by (unfold rows; by rewrite filter_cons_True).
      destruct (Hget col) as [s Hs]; [rewrite Hrows; by constructor|].
      destruct (stats_row_included data selected_columns ws row col s Hc Hs)
        as (ws1 & Hrow & Hv1).
      destruct (IH ws1 (row + 1)) as (ws' & Hrest & Hv).
      { intros col' Hin. apply Hget. rewrite Hrows. by constructor. }
      exists ws'. split.
      * cbn [stats_rows]. rewrite Hrow, Hrest, Hrows. simpl. do 2 f_equal. lia.
      * intros c r. rewrite Hv, Hrows. clear Hv Hrest Hrow IH. unfold stats_written.
        destruct (decide (row + 1 < r)) as [Hlt|Hge].
        -- rewrite (decide_True (P := row < r)) by lia.
           replace (r - (row + 1)) with (S (r - (row + 1 + 1))) by lia. simpl.
           destruct (_ ≫= _); [done|].
           rewrite Hv1, decide_False by lia. done.
        -- simpl. rewrite Hv1. destruct (decide (r = row + 1)) as [->|Hne].
           ++ rewrite decide_True by lia. rewrite Nat.sub_diag. simpl. by rewrite Hs.
           ++ rewrite decide_False by lia. done.
    + assert (Hrows : rows = filter (fun col : label =>
                        label_in col selected_columns
                        || bool_decide (selected_columns = []) = true) cols)
        by (unfold rows; rewrite filter_cons_False; [done | by rewrite Hc]).
      cbn [stats_rows]. rewrite stats_row_excluded by done.
      rewrite Hrows. apply IH. by rewrite <- Hrows.
Qed.

Lemma getitem_NoDup (data : DataFrame) (col : label) :
  NoDup (labels data) -> col ∈ labels data -> is_Some (getitem data col).
Proof.
  unfold labels. intros Hnd Hin.
  apply list_elem_of_fmap in Hin as ([l s] & -> & Hin).
  apply list_elem_of_split in Hin as (pre & post & Hcols).
  destruct data as [idx cols]. simpl in *. subst cols.
  exists s. by apply getitem_middle.
Qed.

Lemma select_number_columns_labels (data : DataFrame) (col : label) :
  col ∈ select_number_columns data -> col ∈ labels data.
Proof.
  unfold select_number_columns, labels. intros Hin.
  apply list_elem_of_fmap in Hin as (ls & -> & Hin).
  apply list_elem_of_filter in Hin as [_ Hin]. by apply list_elem_of_fmap_2.
Qed.

Lemma included_getitem (data : DataFrame) (selected_columns : list string) (col : label) :
  NoDup (labels data) -> col ∈ included data selected_columns ->
  is_Some (getitem data col).
Proof.
  intros Hnd Hin. apply list_elem_of_filter in Hin as [_ Hin].
  by apply getitem_NoDup, select_number_columns_labels.
Qed.

(** The sheet [render] builds from an empty one holds, cell by cell, the
    table [layout]. *)
Lemma render_layout (data : DataFrame) (selected_columns : list string) :
  (forall col, col ∈ included data selected_columns -> is_Some (getitem data col)) ->
  exists ws,
    render data selected_columns empty_sheet = Ok ws /\
    forall c r, cell_values ws !! (c, r) = layout data selected_columns c r.
Proof.
  intros Hget. unfold render. cbv zeta.
  match goal with |- context [foldl bullet (?w, ?r) _] =>
    set (ws0 := w); destruct (foldl_bullet selected_columns ws0 r) as [Hrow Hbul] end.
  destruct (foldl bullet _ selected_columns) as [ws1 row1]. cbn [fst snd] in Hrow, Hbul.
  subst row1. set (n := length selected_columns) in *.
  assert (Hb : bool_decide (select_number_columns data <> [])
               = (0 <? length (select_number_columns data))).
  { destruct (select_number_columns data); [done|]. by rewrite bool_decide_true. }
  assert (H0 : forall c r, cell_values ws0 !! (c, r)
               = if decide (r = 1) then only_A c (str "Construction Project Statistics")
                 else if decide (r = 3) then only_A c (str "Selected Columns for Analysis:")
                 else None).
  { intros c r. subst ws0.
    repeat (rewrite lookup_setvalue || rewrite values_setfont).
    cbn [cell_values empty_sheet]. rewrite lookup_empty. unfold only_A. by_rows. }
  clearbody ws0.
  destruct (0 <? length (select_number_columns data)) eqn:Hnum.
  - match goal with |- context [stats_rows _ _ _ (?w, ?r)] =>
      destruct (stats_rows_lookup data selected_columns (select_number_columns data) w r Hget)
        as (ws2 & Hstats & Hv) end.
    rewrite Hstats. eexists. split; [done|]. clear Hstats.
    fold (included data selected_columns) in Hv |- *.
    intros c r.
    repeat (rewrite lookup_setvalue || rewrite values_setfont
            || rewrite values_bold_headers || rewrite Hv || rewrite Hbul || rewrite H0).
    clear Hv Hbul H0.
    unfold layout, stats_written. fold n. rewrite Hb.
    set (rows := included data selected_columns) in *.
    replace (r - (3 + 1 + n + 2 + 1 + 1 + 2 + 1 + 1)) with (r - (12 + n)) by lia.
    destruct (rows !! (r - (12 + n))) as [col|] eqn:Hrow.
    + pose proof (lookup_lt_Some _ _ _ Hrow) as Hlt.
      destruct (Hget col) as [s Hs]; [by eapply list_elem_of_lookup_2|].
      unfold stats_row_cell. rewrite Hs.
      destruct (decide (3 + 1 + n + 2 + 1 + 1 + 2 + 1 < r)) as [Hr|Hr]; simpl.
      * rewrite Hs. simpl.
        destruct (stats_cell s col c) as [x|]; simpl; unfold only_A, header_cell; by_rows.
      * unfold only_A, header_cell.
        zone (r = 1); zone (r = 3); zone (4 <= r < 4 + n); zone (r = 6 + n);
        zone (r = 7 + n); zone (r = 8 + n); zone (r = 10 + n); zone (r = 11 + n); by_rows.
    + pose proof (lookup_ge_None_1 _ _ Hrow) as Hge.
      destruct (decide (3 + 1 + n + 2 + 1 + 1 + 2 + 1 < r)) as [Hr|Hr]; simpl;
        unfold only_A, header_cell.
      * zone (r = 11 + n + length rows + 3); zone (r = 11 + n + length rows + 4); by_rows.
      * zone (r = 1); zone (r = 3); zone (4 <= r < 4 + n); zone (r = 6 + n);
        zone (r = 7 + n); zone (r = 8 + n); zone (r = 10 + n); zone (r = 11 + n); by_rows.
  - eexists. split; [done|].
    intros c r.
    repeat (rewrite lookup_setvalue || rewrite values_setfont || rewrite Hbul || rewrite H0).
    clear Hbul H0.
    unfold layout. fold n. rewrite Hb. unfold only_A.
    zone (r = 1); zone (r = 3); zone (4 <= r < 4 + n); zone (r = 6 + n);
    zone (r = 7 + n); zone (r = 8 + n); zone (r = 11 + n); zone (r = 12 + n); by_rows.
Qed.

End Rendering.

(** ** The aggregates *)

Section Aggregates.
Local Open Scope Q_scope.









End Aggregates.

(** ** The rendered sheet: the stated properties *)

Section SheetFacts.
Import Layout.

Lemma render_ok (data : DataFrame) (selected_columns : list string) :
  NoDup (labels data) ->
  exists ws,
    render data selected_columns empty_sheet = Ok ws /\
    forall c r, cell_values ws !! (c, r) = layout data selected_columns c r.
Proof.
  intros Hnd. apply render_layout. intros col Hin. by eapply included_getitem.
Qed.

Lemma label_cell_inj (a b : label) : label_cell a = label_cell b -> a = b.
Proof.
  destruct a, b; simpl; intros [=]; subst; try done.
Qed.

Lemma included_spec (data : DataFrame) (selected_columns : list string) (col : label) :
  col ∈ included data selected_columns
  <-> col ∈ select_number_columns data
      /\ (selected_columns = [] \/ label_in col selected_columns = true).
Proof.
  unfold included. rewrite list_elem_of_filter, orb_true_iff, bool_decide_eq_true.
  tauto.
Qed.

(** In the table, the rows with a count below the header row are the rows
    of the included columns. *)
Lemma layout_stats_row (data : DataFrame) (selected_columns : list string)
    (col : label) (r : nat) :
  (forall col, col ∈ included data selected_columns -> is_Some (getitem data col)) ->
  11 + length selected_columns < r ->
  layout data selected_columns "A" r = label_cell col ->
  is_Some (layout data selected_columns "B" r) ->
  col ∈ included data selected_columns.
Proof.
  intros Hget Hr HA HB. unfold layout in *.
  set (n := length selected_columns) in *.
  set (rows := included data selected_columns) in *.
  destruct (rows !! (r - (12 + n))) as [col'|] eqn:Hrow.
  - pose proof (lookup_lt_Some _ _ _ Hrow) as Hlt.
    assert (Hin : col' ∈ rows) by (by eapply list_elem_of_lookup_2).
    destruct (Hget col' Hin) as [s Hs].
    revert HA HB. unfold stats_row_cell, only_A. rewrite Hs. unfold stats_cell.
    destruct (bool_decide (select_number_columns data <> [])) eqn:Hb.
    + by_rows. intros HA _. by rewrite <- (label_cell_inj _ _ HA).
    + by_rows; intros _ [? ?]; done.
  - pose proof (lookup_ge_None_1 _ _ Hrow) as Hge.
    revert HA HB. unfold only_A.
    destruct (bool_decide (select_number_columns data <> [])) eqn:Hb;
      by_rows; intros _ [? ?]; done.
Qed.



End SheetFacts.







Section NumericSection.
Import Layout.



End NumericSection.



(** ** The example of the specification, evaluated *)

(** Cleaning the sample sheet drops the empty third row and turns StartDate
    into dates; Task stays text and Cost stays numeric. *)
Example clean_sample :
  clean_body Sample.projects
  = (Ok tt,
     {| index := [0; 1];
        columns :=
          [ (LStr "Task", {| s_dtype := object;
                             s_values := [Some (VStr "Foundation"); Some (VStr "Framing")] |});
            (LStr "Cost", {| s_dtype := float64;
                             s_values := [Some (VNum 1000); None] |});
            (LStr "StartDate", {| s_dtype := datetime64;
                                  s_values := [Some (VDate 20240105); Some (VDate 20240210)] |}) ] |}).
Proof. vm_compute. reflexivity. Qed.

(** With nothing selected, the row of Cost comes right under the header row:
    count 1, mean 1000.00, least and greatest 1000. *)
Example cost_row :
  match render (clean_body Sample.projects).2 [] empty_sheet with
  | Ok ws =>
      (cell_values ws !! ("A", 11), cell_values ws !! ("A", 12),
       cell_values ws !! ("B", 12), cell_values ws !! ("C", 12),
       cell_values ws !! ("D", 12), cell_values ws !! ("E", 12))
  | Raise _ => (None, None, None, None, None, None)
  end
  = (str "Column", str "Cost", num 1, num (Qmake 100000 100), num 1000, num 1000).
Proof. vm_compute. reflexivity. Qed.

(** A header that is a number stops the cleaning at the date loop: the
    frame comes back with the empty row gone and the error printed. *)
Example clean_numbered_header :
  let df := {| index := [0; 1];
               columns := [ (LInt 2024, {| s_dtype := object;
                                           s_values := [Some (VStr "12"); None] |}) ] |} in
  _clean_dataframe df Sample.disk
  = (Ok {| index := [0];
           columns := [ (LInt 2024, {| s_dtype := object; s_values := [Some (VStr "12")] |}) ] |},
     {| fs := fs Sample.disk;
        stdout := ["Error cleaning dataframe: 'int' object has no attribute 'lower'"%string] |}).
Proof. vm_compute. reflexivity. Qed.

(** * Beyond the Statistics sheet *)

(** ** The read operations leave the files alone *)

Section FilesUntouched.
Context `{Parsers} `{Reader}.






End FilesUntouched.



Section OneFile.

Lemma save_other_paths (wb : Workbook) (file_path other : string) (w : world) :
  other <> file_path -> fs (save wb file_path w).2 !! other = fs w !! other.
Proof.
  intros Hne. unfold save. destruct (fs w !! file_path) as [e|]; simpl.
  - destruct (mode e); simpl; [|done|]; by rewrite lookup_insert_ne.
  - by rewrite lookup_insert_ne.
Qed.

Lemma save_not_failing (wb : Workbook) (file_path e : string) (w w' : world) :
  (forall en, fs w !! file_path = Some en -> mode en <> Failing) ->
  save wb file_path w = (Raise e, w') -> w' = w.
Proof.
  intros Hmode. unfold save. destruct (fs w !! file_path) as [en|] eqn:Hen; [|done].
  specialize (Hmode en eq_refl). destruct (mode en); [done | by intros [= <-] | done].
Qed.





End OneFile.

(** X3. [create_statistics_sheet] writes to the one path it is given: every
    other path holds afterwards what it held before; and when the call
    returns false on a path that does not break off in the middle of a
    write, that file is unchanged as well. *)
Theorem create_statistics_sheet_one_path (file_path : string) (data : DataFrame)
    (selected_columns : list string) (w : world) :
  let out := create_statistics_sheet file_path data selected_columns w in
  (forall other, other <> file_path -> fs out.2 !! other = fs w !! other) /\
  (out.1 = Ok false ->
   (forall en, fs w !! file_path = Some en -> mode en <> Failing) ->
   fs out.2 = fs w).
Proof.
  cbv zeta. rewrite create_statistics_sheet_cases.
  pose proof (load_workbook_world file_path w) as Hw.
  destruct (load_workbook file_path w) as [[wb|e] w1]; simpl in *; subst; [|done].
  destruct (render data selected_columns empty_sheet) as [ws|e]; [|done].
  pose proof (save_other_paths (saved_workbook wb ws) file_path) as Hother.
  destruct (save (saved_workbook wb ws) file_path w) as [[[]|e] w'] eqn:Hs; simpl.
  - split; [|done]. intros other Hne. specialize (Hother other w Hne). by rewrite Hs in Hother.
  - split.
    + intros other Hne. specialize (Hother other w Hne). by rewrite Hs in Hother.
    + intros _ Hmode. by rewrite (save_not_failing _ _ _ _ _ Hmode Hs).
Qed.





Section SelectionOrder.
Import Layout.

Lemma label_in_Permutation (col : label) (l1 l2 : list string) :
  l1 ≡ₚ l2 -> label_in col l1 = label_in col l2.
Proof.
  intros Hp. destruct col as [s|z]; [|done]. simpl.
  apply bool_decide_ext. by rewrite Hp.
Qed.

Lemma included_Permutation (data : DataFrame) (l1 l2 : list string) :
  l1 ≡ₚ l2 -> included data l1 = included data l2.
Proof.
  intros Hp. unfold included.
  assert (He : bool_decide (l1 = []) = bool_decide (l2 = [])).
  { apply bool_decide_ext. split; intros ->.
    - by apply Permutation_nil_l in Hp.
    - by apply Permutation_nil_r in Hp. }
  induction (select_number_columns data) as [|col cols IH]; [done|].
  rewrite !filter_cons, IH, (label_in_Permutation col l1 l2 Hp), He.
  by repeat case_decide.
Qed.

Lemma layout_Permutation (data : DataFrame) (l1 l2 : list string) (c : string) (r : nat) :
  l1 ≡ₚ l2 -> r < 4 \/ 4 + length l1 <= r ->
  layout data l1 c r = layout data l2 c r.
Proof.
  intros Hp Hr. unfold layout.
  rewrite <- (Permutation_length Hp), <- (included_Permutation data l1 l2 Hp).
  set (n := length l1) in *.
  rewrite (decide_False (P := 4 <= r < 4 + n)) by lia.
  rewrite (decide_False (P := 4 <= r < 4 + n)) by lia. done.
Qed.

(** A column has a row in the rendered sheet exactly when it is included. *)
Lemma has_stats_row_included (data : DataFrame) (selected_columns : list string)
    (ws : Worksheet) (col : label) :
  NoDup (labels data) ->
  render data selected_columns empty_sheet = Ok ws ->
  has_stats_row ws selected_columns col -> col ∈ included data selected_columns.
Proof.
  intros Hnd Hrender (r & Hr & HA & HB).
  destruct (render_ok data selected_columns Hnd) as (ws' & Hrender' & Hlay).
  rewrite Hrender in Hrender'. injection Hrender' as <-.
  rewrite Hlay in HA, HB. eapply layout_stats_row; [|done..].
  intros col' Hin. by eapply included_getitem.
Qed.

End SelectionOrder.

(** X6. The statistics table follows the order of the table's columns, not
    the order of the selection: rendering with the selection reordered gives
    the same sheet everywhere outside the bullet lines. *)
Theorem statistics_ignore_selection_order (data : DataFrame)
    (selected1 selected2 : list string) :
  NoDup (labels data) -> selected1 ≡ₚ selected2 ->
  exists ws1 ws2,
    render data selected1 empty_sheet = Ok ws1 /\
    render data selected2 empty_sheet = Ok ws2 /\
    forall c r, r < 4 \/ 4 + length selected1 <= r ->
                cell_values ws1 !! (c, r) = cell_values ws2 !! (c, r).
Proof.
  intros Hnd Hp.
  destruct (render_ok data selected1 Hnd) as (ws1 & Hr1 & Hl1).
  destruct (render_ok data selected2 Hnd) as (ws2 & Hr2 & Hl2).
  exists ws1, ws2. split; [done|]. split; [done|].
  intros c r Hr. rewrite Hl1, Hl2. by apply layout_Permutation.
Qed.

Lemma statistics_ignore_selection_order_witness :
  exists ws1 ws2,
    render Sample.projects ["Cost"; "Task"]%string empty_sheet = Ok ws1 /\
    render Sample.projects ["Task"; "Cost"]%string empty_sheet = Ok ws2 /\
    forall c r, r < 4 \/ 4 + length ["Cost"; "Task"]%string <= r ->
                cell_values ws1 !! (c, r) = cell_values ws2 !! (c, r).
Proof.
  apply (statistics_ignore_selection_order Sample.projects).
  - apply (bool_decide_unpack _). vm_compute. exact I.
  - apply perm_swap.
Defined.

Section Removing.
Context `{Parsers}.

Lemma boolean_index_sublist {A : Type} (mask : list bool) (xs : list A) :
  boolean_index mask xs `sublist_of` xs.
Proof.
  revert xs. induction mask as [|b mask IH]; intros [|x xs]; simpl;
    try apply sublist_nil_l.
  destruct b; [by apply sublist_skip | by apply sublist_cons].
Qed.

Lemma boolean_index_Forall {A : Type} (P : A -> Prop) (mask : list bool) (xs : list A) :
  Forall P xs -> Forall P (boolean_index mask xs).
Proof.
  intros HP. rewrite Forall_forall in HP |- *. intros x Hx. apply HP.
  eapply elem_of_sublist; [done | apply boolean_index_sublist].
Qed.

Lemma boolean_index_elem {A : Type} (mask : list bool) (xs : list A) (i : nat) (x : A) :
  mask !! i = Some true -> xs !! i = Some x -> x ∈ boolean_index mask xs.
Proof.
  revert xs i. induction mask as [|b mask IH]; intros [|y xs] [|i] Hm Hx; simplify_eq/=.
  - by constructor.
  - destruct b; [apply elem_of_cons; right|]; eauto.
Qed.

Lemma clean_body_wf (df : DataFrame) : wf df -> wf (clean_body df).2.
Proof.
  intros Hwf. pose proof (wf_dropna_cols _ (wf_dropna_rows _ Hwf)) as Hwf0.
  destruct (clean_body_coerced df) as [Hidx HF].
  unfold wf, len in *. rewrite Hidx. rewrite Forall_forall in Hwf0.
  apply Forall_forall. intros b Hb. apply list_elem_of_lookup in Hb as [k Hk].
  destruct (Forall2_lookup_r _ _ _ _ _ HF Hk) as (a & Ha & _ & Hc).
  rewrite (coerced_length _ _ Hc). apply Hwf0. by eapply list_elem_of_lookup_2.
Qed.

End Removing.

(** X8. Cleaning only removes: the headers of the cleaned frame are a
    sub-sequence of the headers it was given, its row labels a sub-sequence
    of the row labels it was given, and a rectangular frame stays
    rectangular. *)
Theorem cleaning_only_removes `{Parsers} (df : DataFrame) (w : world) :
  exists df' w',
    _clean_dataframe df w = (Ok df', w') /\
    labels df' `sublist_of` labels df /\
    index df' `sublist_of` index df /\
    (wf df -> wf df').
Proof.
  destruct (clean_dataframe_returns df w) as [w' Hc].
  exists (clean_body df).2, w'. split; [done|].
  pose proof (clean_body_coerced df) as Hcw. split; [|split].
  - rewrite (columnwise_labels _ _ _ Hcw). apply labels_dropna.
  - destruct Hcw as [-> _]. apply boolean_index_sublist.
  - apply clean_body_wf.
Qed.

Section DateNamed.
Context `{Parsers}.
Import Column.

Lemma numeric_cells_to_datetime (s : Series) :
  numeric_cells s -> s_dtype (to_datetime s) = datetime64.
Proof.
  intros Hn. unfold to_datetime.
  assert (Hm : is_Some (mapM (convert_cell as_datetime) (s_values s))).
  { unfold numeric_cells in Hn. induction Hn as [|c l Hc _ [ys Hys]]; [by eexists|].
    destruct c as [[t|q|b|d]|]; try done; simpl; rewrite Hys; by eexists. }
  by destruct Hm as [ys ->].
Qed.

Lemma kept_column_not_empty (df : DataFrame) (l : label) (s : Series) :
  wf df -> (l, s) ∈ columns df -> col_all_na s = false ->
  col_all_na {| s_dtype := s_dtype s;
                s_values := boolean_index
                              (map (fun i => negb (row_all_na df i)) (seq 0 (len df)))
                              (s_values s) |} = false.
Proof.
  intros Hwf Hin Hna.
  apply col_all_na_witness in Hna as (i & Hi & Hna).
  assert (Hlen : length (s_values s) = len df).
  { unfold wf in Hwf. rewrite Forall_forall in Hwf. by apply (Hwf (l, s)). }
  assert (Hrow : row_all_na df i = false).
  { apply row_all_na_false. by exists (l, s). }
  unfold iat in Hna. destruct (s_values s !! i) as [c|] eqn:Hc; [|done].
  apply not_true_is_false. unfold col_all_na. simpl. intros Hall.
  rewrite forallb_forall in Hall.
  assert (Hc' : isna c = true).
  { apply Hall, list_elem_of_In. eapply boolean_index_elem; [|done].
    rewrite list_lookup_fmap, lookup_seq_lt by lia. simpl. by rewrite Hrow. }
  congruence.
Qed.

End DateNamed.

(** X7. A column of numbers whose header mentions "date" or "time" does not
    stay numeric: on a rectangular frame with distinct text headers,
    cleaning turns it into a datetime column, so it is no numeric column of
    the cleaned frame and gets no row in the Statistics sheet, whatever the
    selection. *)
Theorem date_named_numbers_become_dates `{Parsers} (df : DataFrame) (w : world)
    (name : string) (s : Series) :
  wf df -> NoDup (labels df) -> Forall Column.is_text (labels df) ->
  (LStr name, s) ∈ columns df ->
  Column.date_named (LStr name) = true ->
  numeric_cells s -> col_all_na s = false ->
  exists df' w' s',
    _clean_dataframe df w = (Ok df', w') /\
    getitem df' (LStr name) = Some s' /\
    s_dtype s' = datetime64 /\
    (LStr name ∉ select_number_columns df') /\
    forall selected_columns ws,
      render df' selected_columns empty_sheet = Ok ws ->
      ~ Layout.has_stats_row ws selected_columns (LStr name).
Proof.
  intros Hwf Hnd Htext Hin Hdate Hnum Hna.
  destruct (clean_dataframe_returns df w) as [w' Hc].
  set (mask := map (fun i => negb (row_all_na df i)) (seq 0 (len df))).
  set (s0 := {| s_dtype := s_dtype s; s_values := boolean_index mask (s_values s) |}).
  set (s' := Column.numeric_step (Column.date_step (LStr name) s0)).
  assert (Hs' : s_dtype s' = datetime64).
  { unfold s', Column.date_step. rewrite Hdate.
    assert (Hd : s_dtype (to_datetime s0) = datetime64).
    { apply numeric_cells_to_datetime. by apply boolean_index_Forall. }
    unfold Column.numeric_step. rewrite decide_False; [done|]. by rewrite Hd. }
  assert (Hin' : (LStr name, s') ∈ columns (clean_body df).2).
  { rewrite (clean_body_exact df Hnd Htext). cbn [snd columns].
    apply (list_elem_of_fmap_2 (fun ls : label * Series =>
              (ls.1, Column.numeric_step (Column.date_step ls.1 ls.2))) _ (LStr name, s0)).
    apply list_elem_of_filter. split; [by eapply kept_column_not_empty|].
    by apply (list_elem_of_fmap_2 (fun ls : label * Series =>
              (ls.1, {| s_dtype := s_dtype ls.2;
                        s_values := boolean_index mask (s_values ls.2) |})) _ (LStr name, s)). }
  assert (Hnd' : NoDup (labels (clean_body df).2)).
  { rewrite (columnwise_labels _ _ _ (clean_body_coerced df)).
    eapply sublist_NoDup; [done | apply labels_dropna]. }
  assert (Hget : getitem (clean_body df).2 (LStr name) = Some s').
  { destruct (getitem_NoDup (clean_body df).2 (LStr name) Hnd') as [s1 Hs1].
    - by apply (list_elem_of_fmap_2 fst _ (LStr name, s')).
    - rewrite Hs1. f_equal. symmetry.
      apply (getitem_unique _ _ _ Hs1 (LStr name, s') Hin' eq_refl). }
  assert (Hnot : LStr name ∉ select_number_columns (clean_body df).2).
  { unfold select_number_columns. intros Hsel.
    apply list_elem_of_fmap in Hsel as ([l s1] & Hl & Hsel). simpl in Hl. subst l.
    apply list_elem_of_filter in Hsel as [Hnumber Hsel]. simpl in Hnumber.
    pose proof (getitem_unique _ _ _ Hget (LStr name, s1) Hsel eq_refl) as Hu.
    simpl in Hu. subst s1. by rewrite Hs' in Hnumber. }
  exists (clean_body df).2, w', s'. repeat split; try done.
  intros sel ws Hrender Hrow.
  apply (has_stats_row_included _ _ _ _ Hnd' Hrender), included_spec in Hrow as [? _]. done.
Qed.

Lemma date_named_numbers_become_dates_witness :
  let df := {| index := [0; 1];
               columns := [ (LStr "Crew", {| s_dtype := object;
                                             s_values := [Some (VStr "A"); Some (VStr "B")] |});
                            (LStr "Downtime", {| s_dtype := int64;
                                                 s_values := [Some (VNum 3); Some (VNum 5)] |}) ] |} in
  exists df' w' s',
    _clean_dataframe df Sample.disk = (Ok df', w') /\
    getitem df' (LStr "Downtime") = Some s' /\
    s_dtype s' = datetime64 /\
    (LStr "Downtime" ∉ select_number_columns df') /\
    forall selected_columns ws,
      render df' selected_columns empty_sheet = Ok ws ->
      ~ Layout.has_stats_row ws selected_columns (LStr "Downtime").
Proof.
  apply (date_named_numbers_become_dates _ Sample.disk "Downtime"
           {| s_dtype := int64; s_values := [Some (VNum 3); Some (VNum 5)] |}).
  - repeat constructor.
  - apply (bool_decide_unpack _). vm_compute. exact I.
  - repeat constructor.
  - apply elem_of_cons; right. by constructor.
  - reflexivity.
  - repeat constructor.
  - reflexivity.
Defined.

(** ** get_column_info *)

Section ColumnInfoFacts.
Context `{Parsers} `{Reader} `{info.Roots}.
Import info ColumnInfo.









End ColumnInfoFacts.




(** * The shared drive of [utils/drive_connector.py] *)

Section Drive.
Import DriveConnector.

(** ** Paths *)

Section Paths.

Lemma append_nil (b : string) : ("" ++ b)%string = b.
Proof. reflexivity. Qed.

Lemma append_cons (c : ascii) (a b : string) :
  (String c a ++ b)%string = String c (a ++ b)%string.
Proof. reflexivity. Qed.

Lemma has_slash_app (a b : string) :
  os.has_slash (a ++ b)%string = os.has_slash a || os.has_slash b.
Proof.
  induction a as [|c a IH]; [done|].
  rewrite append_cons. simpl. rewrite IH. by destruct (os.is_slash c).
Qed.

Lemma rsplit_app (a b : string) :
  os.has_slash b = false ->
  os.rsplit (a ++ "/" ++ b)%string = ((a ++ "/")%string, b).
Proof.
  intros Hb. induction a as [|c a IH].
  - rewrite append_nil, append_cons, append_nil. cbn [os.rsplit]. by rewrite Hb.
  - rewrite !(append_cons c a). cbn [os.rsplit]. rewrite IH.
    replace (os.has_slash (a ++ "/" ++ b)%string) with true; [done|].
    rewrite has_slash_app, (append_cons "/"). simpl. by rewrite orb_true_r.
Qed.

Lemma all_slashes_app (a b : string) :
  os.all_slashes (a ++ b)%string = os.all_slashes a && os.all_slashes b.
Proof.
  induction a as [|c a IH]; [done|].
  rewrite append_cons. simpl. rewrite IH. by destruct (os.is_slash c).
Qed.

Lemma all_slashes_endswith (p : string) :
  p <> ""%string -> os.endswith_slash p = false -> os.all_slashes p = false.
Proof.
  induction p as [|c p IH]; [done|]. intros _ He.
  destruct p as [|d p].
  - simpl in *. by rewrite He.
  - cbn [os.all_slashes]. cbn [os.all_slashes] in IH. rewrite IH; [by rewrite andb_false_r|done|done].
Qed.

Lemma rstrip_slashes_app (p : string) :
  os.endswith_slash p = false -> os.rstrip_slashes (p ++ "/")%string = p.
Proof.
  induction p as [|c p IH]; [done|]. intros He.
  rewrite append_cons. cbn [os.rstrip_slashes].
  destruct p as [|d p].
  - rewrite append_nil. simpl in *. by rewrite He.
  - assert (os.endswith_slash (String d p) = false) as He' by done.
    rewrite IH by done.
    replace (os.all_slashes (String c (String d p ++ "/")%string)) with false; [done|].
    cbn [os.all_slashes].
    rewrite all_slashes_app, (all_slashes_endswith (String d p)) by done.
    by rewrite andb_false_r.
Qed.

Lemma eqb_empty (p : string) : p <> ""%string -> String.eqb p "" = false.
Proof. by destruct p. Qed.

Lemma join_plain (p name : string) :
  plain p -> String.prefix "/" name = false ->
  os.join p name = (p ++ "/" ++ name)%string.
Proof.
  intros [Hp He] Hn. unfold os.join. by rewrite Hn, eqb_empty, He.
Qed.

Lemma prefix_char (c : ascii) (name : string) :
  String.prefix (String c "") name
  = match name with String d _ => Ascii.eqb c d | EmptyString => false end.
Proof.
  destruct name as [|d name]; [done|]. cbn [String.prefix].
  destruct (ascii_dec c d) as [->|Hc].
  - rewrite Ascii.eqb_refl. by destruct name.
  - symmetry. by apply Ascii.eqb_neq.
Qed.

Lemma prefix_slash (name : string) :
  os.has_slash name = false -> String.prefix "/" name = false.
Proof.
  rewrite prefix_char. destruct name as [|c name]; [done|].
  cbn [os.has_slash]. unfold os.is_slash. rewrite Ascii.eqb_sym.
  by destruct (Ascii.eqb "/" c).
Qed.

Lemma split_join (p name : string) :
  plain p -> os.has_slash name = false ->
  os.split (os.join p name) = (p, name).
Proof.
  intros Hp Hn. rewrite join_plain by auto using prefix_slash.
  unfold os.split. rewrite rsplit_app by done.
  destruct Hp as [Hp He].
  rewrite all_slashes_app, (all_slashes_endswith p) by done.
  rewrite eqb_empty by (by destruct p). simpl.
  by rewrite rstrip_slashes_app.
Qed.

Lemma basename_join (p name : string) :
  plain p -> os.has_slash name = false -> os.basename (os.join p name) = name.
Proof.
  intros Hp Hn. rewrite join_plain by auto using prefix_slash.
  unfold os.basename. by rewrite rsplit_app.
Qed.

Lemma has_magic_app (a b : string) :
  glob.has_magic (a ++ b)%string = glob.has_magic a || glob.has_magic b.
Proof.
  induction a as [|c a IH]; [done|].
  rewrite append_cons. simpl. rewrite IH. by destruct (glob.is_magic c).
Qed.

End Paths.

(** ** Patterns *)

Section Patterns.

Lemma string_eqb_cons (c d : ascii) (a b : string) :
  String.eqb (String c a) (String d b) = Ascii.eqb c d && String.eqb a b.
Proof. simpl. by destruct (Ascii.eqb c d). Qed.

Lemma fnmatch_literal (lit name : string) :
  glob.has_magic lit = false -> glob.fnmatch lit name = String.eqb lit name.
Proof.
  revert name. induction lit as [|c lit IH]; intros name Hm.
  - destruct name; done.
  - cbn [glob.has_magic] in Hm. apply orb_false_iff in Hm as [Hc Hm].
    unfold glob.is_magic in Hc.
    apply orb_false_iff in Hc as [Hc _]. apply orb_false_iff in Hc as [Hs Hq].
    cbn [glob.fnmatch]. rewrite Hs, Hq.
    destruct name as [|d name]; [done|].
    by rewrite string_eqb_cons, IH.
Qed.

Lemma fnmatch_star_eq (pat name : string) :
  glob.fnmatch (String "*" pat) name
  = glob.fnmatch pat name
    || match name with
       | EmptyString => false
       | String _ name' => glob.fnmatch (String "*" pat) name'
       end.
Proof. by destruct name. Qed.

Lemma fnmatch_star (pat name : string) :
  glob.fnmatch (String "*" pat) name = true
  <-> exists pre suf, name = (pre ++ suf)%string /\ glob.fnmatch pat suf = true.
Proof.
  induction name as [|d name IH]; rewrite fnmatch_star_eq.
  - rewrite orb_false_r. split.
    + intros Hf. by exists ""%string, ""%string.
    + intros (pre & suf & Heq & Hf). destruct pre; [|done].
      rewrite append_nil in Heq. by subst.
  - rewrite orb_true_iff, IH. split.
    + intros [Hf|(pre & suf & -> & Hf)].
      * by exists ""%string, (String d name).
      * by exists (String d pre), suf.
    + intros (pre & suf & Heq & Hf). destruct pre as [|c pre].
      * rewrite append_nil in Heq. subst. by left.
      * rewrite append_cons in Heq. injection Heq as -> ->. right. by exists pre, suf.
Qed.

(** The names that [*ext] picks are the names that end with [ext]. *)
Lemma fnmatch_extension (ext name : string) :
  glob.has_magic ext = false ->
  glob.fnmatch (String "*" ext) name = true <-> exists stem, name = (stem ++ ext)%string.
Proof.
  intros Hm. rewrite fnmatch_star. split.
  - intros (pre & suf & -> & Hf). rewrite fnmatch_literal in Hf by done.
    apply String.eqb_eq in Hf as <-. by exists pre.
  - intros [stem ->]. exists stem, ext. split; [done|].
    rewrite fnmatch_literal by done. apply String.eqb_refl.
Qed.

End Patterns.

(** ** The order of [sorted] *)

Section Order.

Lemma compare_le_trans (x y z : string) :
  String.compare x y <> Gt -> String.compare y z <> Gt -> String.compare x z <> Gt.
Proof.
  revert y z. induction x as [|a x IH]; intros [|b y] [|c z]; simpl; try done.
  unfold Ascii.compare.
  destruct (N.compare_spec (N_of_ascii a) (N_of_ascii b)) as [Hab|Hab|Hab];
    destruct (N.compare_spec (N_of_ascii b) (N_of_ascii c)) as [Hbc|Hbc|Hbc];
    destruct (N.compare_spec (N_of_ascii a) (N_of_ascii c)) as [Hac|Hac|Hac];
    try done; try lia.
  apply IH.
Qed.

Lemma leb_compare (x y : string) : str_le x y <-> String.compare x y <> Gt.
Proof. unfold str_le, String.leb. by destruct (String.compare x y). Qed.

Lemma str_le_total : Total str_le.
Proof. intros x y. apply String.leb_total. Qed.

Lemma str_le_trans : Transitive str_le.
Proof. intros x y z. rewrite !leb_compare. apply compare_le_trans. Qed.

Lemma sorted_StronglySorted (xs : list string) : StronglySorted str_le (sorted xs).
Proof.
  pose proof str_le_total. pose proof str_le_trans.
  apply StronglySorted_merge_sort; assumption.
Qed.

Lemma sorted_Permutation (xs : list string) : sorted xs ≡ₚ xs.
Proof. apply merge_sort_Permutation. Qed.

Lemma elem_of_sorted (x : string) (xs : list string) : x ∈ sorted xs <-> x ∈ xs.
Proof. by rewrite sorted_Permutation. Qed.

End Order.

(** ** get_excel_files *)

Section ExcelFiles.
Variable glob_dirs : gmap string os.node -> string -> list string.
Variable t : gmap string os.node.

Lemma collect_filenames (excel_files files : list string) :
  foldl (fun excel_files file_path =>
           let filename := os.basename file_path in
           if negb (String.prefix "~" filename)
           then excel_files ++ [filename] else excel_files)
        excel_files files
  = excel_files ++ filter (fun f => String.prefix "~" f = false) (map os.basename files).
Proof.
  revert excel_files. induction files as [|file_path files IH]; intros excel_files.
  - by rewrite app_nil_r.
  - cbn [foldl map]. rewrite IH. cbv zeta.
    destruct (String.prefix "~" (os.basename file_path)) eqn:Ht; cbn [negb].
    + by rewrite filter_cons_False by (by rewrite Ht).
    + rewrite filter_cons_True by done. by rewrite <- app_assoc.
Qed.

(** The filenames found under one pattern. *)
Lemma get_excel_files_body (project_path : string) (out : list string) :
  get_excel_files glob_dirs t project_path out
  = (Ok (if os.exists_ t project_path
         then sorted (remove_dups
                (flat_map (fun pattern =>
                             filter (fun f => String.prefix "~" f = false)
                                    (map os.basename
                                         (glob.glob glob_dirs t (os.join project_path pattern))))
                          ["*.xlsx"; "*.xls"; "*.xlsm"]%string))
         else []), out).
Proof.
  unfold get_excel_files, try_except.
  destruct (os.exists_ t project_path); cbn [negb]; [|done].
  unfold ret. cbn [foldl flat_map]. rewrite !collect_filenames.
  by rewrite app_nil_l, app_nil_r, <- app_assoc.
Qed.

(** In a folder named plainly, a pattern picks among the names the folder
    lists. *)
Lemma glob_in_folder (project_path pattern : string) (st : os.stat_result)
    (names : list string) :
  plain project_path -> glob.has_magic project_path = false ->
  t !! project_path = Some (os.Dir st names) ->
  Forall (fun name => os.has_slash name = false) names ->
  os.has_slash pattern = false -> glob.has_magic pattern = true ->
  glob.ishidden pattern = false ->
  map os.basename (glob.glob glob_dirs t (os.join project_path pattern))
  = filter (fun x => glob.fnmatch pattern x = true)
           (filter (fun x => glob.ishidden x = false) names).
Proof.
  intros Hp Hm Ht Hnames Hs Hpm Hh.
  unfold glob.glob. rewrite split_join by done.
  rewrite (join_plain project_path pattern) by auto using prefix_slash.
  rewrite !has_magic_app, Hm, Hpm. rewrite orb_true_r. cbn [negb orb].
  rewrite eqb_empty by apply Hp. rewrite andb_false_r.
  cbn [flat_map]. rewrite app_nil_r.
  unfold glob.glob1, os.listdir. rewrite Ht, Hh.
  rewrite <- list_fmap_compose.
  set (picked := filter _ (filter _ names)).
  assert (Forall (fun name => os.has_slash name = false) picked) as Hpicked.
  { apply Forall_forall. intros x Hx. unfold picked in Hx.
    apply list_elem_of_filter in Hx as [_ Hx]. apply list_elem_of_filter in Hx as [_ Hx].
    by apply (proj1 (Forall_forall _ _) Hnames). }
  clearbody picked. induction Hpicked as [|x picked Hx _ IH]; [done|].
  rewrite fmap_cons, IH. f_equal. simpl. by apply basename_join.
Qed.

End ExcelFiles.

(** X11. [get_excel_files] never raises and prints nothing; the filenames
    it returns are in increasing order without repetition, none starts with
    a tilde, and there are none when the path does not exist. *)
Theorem get_excel_files_sorted_distinct
    (glob_dirs : gmap string os.node -> string -> list string)
    (t : gmap string os.node) (project_path : string) (out : list string) :
  exists files,
    get_excel_files glob_dirs t project_path out = (Ok files, out) /\
    StronglySorted str_le files /\ NoDup files /\
    Forall (fun f => String.prefix "~" f = false) files /\
    (os.exists_ t project_path = false -> files = []).
Proof.
  rewrite get_excel_files_body. eexists. split; [done|].
  destruct (os.exists_ t project_path).
  - split; [apply sorted_StronglySorted|].
    split; [rewrite sorted_Permutation; apply NoDup_remove_dups|].
    split; [|done].
    apply Forall_forall. intros f Hf.
    rewrite elem_of_sorted, elem_of_remove_dups, list_elem_of_In, in_flat_map in Hf.
    destruct Hf as (pattern & _ & Hf).
    apply list_elem_of_In in Hf. by apply list_elem_of_filter in Hf as [Hf _].
  - repeat split; constructor.
Qed.

(** X12. In an existing folder whose path has no wildcard character and no
    trailing slash, [get_excel_files] returns exactly the listed names that
    end with .xlsx, .xls or .xlsm and start with neither a dot nor a tilde. *)
Theorem get_excel_files_names
    (glob_dirs : gmap string os.node -> string -> list string)
    (t : gmap string os.node) (project_path : string) (out : list string)
    (st : os.stat_result) (names : list string) :
  plain project_path -> glob.has_magic project_path = false ->
  t !! project_path = Some (os.Dir st names) ->
  Forall (fun name => os.has_slash name = false) names ->
  exists files,
    get_excel_files glob_dirs t project_path out = (Ok files, out) /\
    forall f, f ∈ files <->
      f ∈ names /\ String.prefix "." f = false /\ String.prefix "~" f = false /\
      exists stem, f = (stem ++ ".xlsx")%string \/ f = (stem ++ ".xls")%string
                   \/ f = (stem ++ ".xlsm")%string.
Proof.
  intros Hp Hm Ht Hnames. rewrite get_excel_files_body. eexists. split; [done|].
  unfold os.exists_. rewrite Ht. intros f.
  rewrite elem_of_sorted, elem_of_remove_dups. cbn [flat_map].
  rewrite !(glob_in_folder glob_dirs t project_path _ st names) by done.
  rewrite app_nil_r, !elem_of_app, !list_elem_of_filter.
  rewrite !fnmatch_extension by done. unfold glob.ishidden.
  split.
  - intros [(Ht' & [stem ->] & Hh & Hin)|[(Ht' & [stem ->] & Hh & Hin)|(Ht' & [stem ->] & Hh & Hin)]];
      (repeat split; [done..|exists stem; auto]).
  - intros (Hin & Hh & Ht' & stem & [->|[->| ->]]); [left|right; left|right; right];
      (repeat split; [done|by exists stem|done..]).
Qed.

Lemma get_excel_files_names_witness :
  exists files,
    get_excel_files SampleDrive.no_dirs SampleDrive.drive "/srv/construction/Bridge" []
    = (Ok files, []) /\
    forall f, f ∈ files <->
      f ∈ ["report.xlsx"; "~$report.xlsx"; ".hidden.xls"; "notes.txt";
           "plan.xlsm"; "old.xls"; "REPORT.XLSX"]%string
      /\ String.prefix "." f = false /\ String.prefix "~" f = false /\
      exists stem, f = (stem ++ ".xlsx")%string \/ f = (stem ++ ".xls")%string
                   \/ f = (stem ++ ".xlsm")%string.
Proof.
  apply (get_excel_files_names SampleDrive.no_dirs SampleDrive.drive
           "/srv/construction/Bridge" [] SampleDrive.folder_stat).
  - split; [done | reflexivity].
  - reflexivity.
  - vm_compute. reflexivity.
  - repeat constructor.
Defined.

(** On the sample drive: the lock file, the hidden file, the text file and
    the name in capitals are left out; the rest comes back in order. *)
Example excel_files_of_bridge :
  get_excel_files SampleDrive.no_dirs SampleDrive.drive "/srv/construction/Bridge" []
  = (Ok ["old.xls"; "plan.xlsm"; "report.xlsx"]%string, []).
Proof. vm_compute. reflexivity. Qed.

(** ** get_project_folders, get_file_info *)

Section Folders.
Variable t : gmap string os.node.


End Folders.



Example project_folders_of_construction :
  get_project_folders SampleDrive.drive "/srv/construction" []
  = (Ok ["Annex"; "Bridge"]%string, []).
Proof. vm_compute. reflexivity. Qed.

End Drive.
